(** * pyalgotrading: the AlgoBulls API client (pyalgotrading/algobulls/api.py)

    A shallow embedding of the class [AlgoBullsAPI]: the request dispatcher
    [_send_request], the per-mode key cache ([__fetch_key], [__get_key]),
    the key converter [__convert] and the public operations built on them.

    Python values are embedded as the type [value]; an instance of the class
    is the record [AlgoBullsAPI]; methods are computations in a state and
    exception monad over [World], which holds the instance, the requests
    handed to the transport so far and what was written to standard output.
    The transport itself ([requests.request]) is a variable of the section:
    every statement holds for every behaviour of the remote platform. *)

From Stdlib Require Import ZArith String Ascii List Bool Lia.
From stdpp Require Import base strings gmap.

Local Open Scope Z_scope.
Set Warnings "-register-all".
Set Default Proof Using "Type".

(** ** Python values *)

(** [VFloat m e] is the float written [m]e[e] (so [1e9] is [VFloat 1 9]);
    a [VDict] keeps its items in insertion order, as a Python [dict] does. *)
Inductive value : Type :=
| VNone
| VBool (b : bool)
| VInt (z : Z)
| VFloat (m e : Z)
| VStr (s : string)
| VList (l : list value)
| VDict (d : list (string * value)).

(** [v is None] *)
Definition is_none (v : value) : bool :=
  match v with VNone => true | _ => false end.

(** Insertion-ordered dictionaries with string keys. *)
Module Dict.

Fixpoint get {V : Type} (d : list (string * V)) (k : string) : option V :=
  match d with
  | [] => None
  | (k', v) :: d' => if String.eqb k' k then Some v else get d' k
  end.

(** [d[k] = v]: an existing key keeps its place, a new one goes last. *)
Fixpoint set {V : Type} (d : list (string * V)) (k : string) (v : V)
  : list (string * V) :=
  match d with
  | [] => [(k, v)]
  | (k', v') :: d' =>
      if String.eqb k' k then (k', v) :: d' else (k', v') :: set d' k v
  end.

Definition keys {V : Type} (d : list (string * V)) : list string :=
  map fst d.

End Dict.

(** ** Keys from camel case to snake case *)

(** The character class [[A-Z]] of the pattern. *)
Definition is_upper (c : ascii) : bool :=
  (65 <=? Z.of_nat (nat_of_ascii c)) && (Z.of_nat (nat_of_ascii c) <=? 90).

(** [str.isascii]: every character of the string is below 128. *)
Fixpoint is_ascii (s : string) : bool :=
  match s with
  | EmptyString => true
  | String c s' => (Z.of_nat (nat_of_ascii c) <? 128) && is_ascii s'
  end.

(** [str.lower] on an ASCII character: the letters A-Z go to a-z and every
    other character stays. *)
Definition lower_char (c : ascii) : ascii :=
  if is_upper c then ascii_of_nat (nat_of_ascii c + 32) else c.

(** [str.lower] on the strings of ASCII characters ([is_ascii]). Outside
    them [str.lower] follows the case tables of Unicode, which this model
    does not have: every statement about [lower] is about ASCII strings. *)
Fixpoint lower (s : string) : string :=
  match s with
  | EmptyString => EmptyString
  | String c s' => String (lower_char c) (lower s')
  end.

(** What [pattern.sub('_', ...)] does after the first character, where the
    look-behind [(?<!^)] holds: an underscore goes before every character
    that the look-ahead [(?=[A-Z])] accepts. *)
Fixpoint sub_from (s : string) : string :=
  match s with
  | EmptyString => EmptyString
  | String c s' =>
      if is_upper c then String "_" (String c (sub_from s'))
      else String c (sub_from s')
  end.

(** [self.pattern.sub('_', k)] for [pattern = re.compile(r'(?<!^)(?=[A-Z])')] *)
Definition pattern_sub (k : string) : string :=
  match k with
  | EmptyString => EmptyString
  | String c s' => String c (sub_from s')
  end.

(** [self.pattern.sub('_', k).lower()], for an ASCII key [k]. *)
Definition snake_case (k : string) : string := lower (pattern_sub k).

(** The comprehension [{f(k): v for k, v in d.items()}]: a fresh dictionary
    filled in the order of the items of [d]. *)
Definition dict_comprehension {V : Type} (f : string -> string)
  (d : list (string * V)) : list (string * V) :=
  fold_left (fun acc kv => Dict.set acc (f (fst kv)) (snd kv)) d [].

Definition __convert (_dict : list (string * value)) : list (string * value) :=
  dict_comprehension snake_case _dict.

(** ** Exceptions *)

(** Modelled from the spec: the module [pyalgotrading.algobulls.exceptions]
    is not among the sources. By the taxonomy of the spec the classes that
    api.py imports from it are seven distinct kinds, none derived from
    another, next to the generic [AlgoBullsAPIBaseException], for which
    [BaseError] stands; an [except] clause that lists classes then catches
    exactly the exceptions of the listed kinds. *)
Inductive ErrorKind : Type :=
| BadRequest
| Unauthorized
| InsufficientBalance
| Forbidden
| ResourceNotFound
| InternalServerError
| GatewayTimeout
| BaseError.

(** The keyword arguments every such exception is built with. *)
Record APIException : Type := mkAPIException {
  exc_kind : ErrorKind;
  exc_method : string;
  exc_url : string;
  exc_response : string;
  exc_status_code : Z
}.

(** What a method of the class can raise: the exceptions of the dispatcher
    and those of the Python operations it runs. [NotImplementedError] is
    what the final [else] of a chain over the trading types raises; no
    member of [TradingType] reaches it. [ValueError] and [OSError] are what
    the lookup of the local time zone of the system raises for a naive
    timestamp it cannot place. *)
Inductive exn : Type :=
| APIError (e : APIException)
| JSONDecodeError
| AttributeError
| OverflowError
| KeyError
| NotImplementedError
| ValueError
| OSError.

(** ** Timestamps: [datetime.datetime] of the standard library *)

(** The time zone attached to a timestamp: the object [timezone.utc] itself,
    or any other [tzinfo] whose [utcoffset] at this timestamp is the given
    number of microseconds. *)
Inductive tzinfo : Type :=
| timezone_utc
| tz_offset (microseconds : Z).

Record datetime : Type := mkDatetime {
  year : Z;
  month : Z;
  day : Z;
  hour : Z;
  minute : Z;
  second : Z;
  microsecond : Z;
  tz : option tzinfo
}.

Definition _MAXORDINAL : Z := 3652059.
Definition _DI400Y : Z := 146097.
Definition _DI100Y : Z := 36524.
Definition _DI4Y : Z := 1461.

Definition _is_leap (y : Z) : bool :=
  (y mod 4 =? 0) && (negb (y mod 100 =? 0) || (y mod 400 =? 0)).

Definition _days_before_year (y : Z) : Z :=
  let y := y - 1 in
  y * 365 + y / 4 - y / 100 + y / 400.

(** The table [_DAYS_IN_MONTH], for months 1 to 12. *)
Definition _DAYS_IN_MONTH (m : Z) : Z :=
  if m =? 2 then 28
  else if (m =? 4) || (m =? 6) || (m =? 9) || (m =? 11) then 30
  else 31.

Definition _days_in_month (y m : Z) : Z :=
  if (m =? 2) && _is_leap y then 29 else _DAYS_IN_MONTH m.

(** The table [_DAYS_BEFORE_MONTH], for months 1 to 12. *)
Definition _DAYS_BEFORE_MONTH (m : Z) : Z :=
  if m =? 1 then 0 else if m =? 2 then 31 else if m =? 3 then 59
  else if m =? 4 then 90 else if m =? 5 then 120 else if m =? 6 then 151
  else if m =? 7 then 181 else if m =? 8 then 212 else if m =? 9 then 243
  else if m =? 10 then 273 else if m =? 11 then 304 else 334.

Definition _days_before_month (y m : Z) : Z :=
  _DAYS_BEFORE_MONTH m + (if (2 <? m) && _is_leap y then 1 else 0).

Definition _ymd2ord (y m d : Z) : Z :=
  _days_before_year y + _days_before_month y m + d.

Definition _ord2ymd (n : Z) : Z * Z * Z :=
  let n := n - 1 in
  let n400 := n / _DI400Y in
  let n := n mod _DI400Y in
  let y := n400 * 400 + 1 in
  let n100 := n / _DI100Y in
  let n := n mod _DI100Y in
  let n4 := n / _DI4Y in
  let n := n mod _DI4Y in
  let n1 := n / 365 in
  let n := n mod 365 in
  let y := y + n100 * 100 + n4 * 4 + n1 in
  if (n1 =? 4) || (n100 =? 4) then (y - 1, 12, 31)
  else
    let leapyear := (n1 =? 3) && (negb (n4 =? 24) || (n100 =? 3)) in
    let m := Z.shiftr (n + 50) 5 in
    let preceding :=
      _DAYS_BEFORE_MONTH m + (if (2 <? m) && leapyear then 1 else 0) in
    if n <? preceding then
      let m := m - 1 in
      let preceding :=
        preceding - (_DAYS_IN_MONTH m + (if (m =? 2) && leapyear then 1 else 0)) in
      (y, m, n - preceding + 1)
    else (y, m, n - preceding + 1).

(** The checks of the constructor: what every [datetime] object satisfies. *)
Definition valid_datetime (d : datetime) : Prop :=
  1 <= year d <= 9999 /\ 1 <= month d <= 12 /\
  1 <= day d <= _days_in_month (year d) (month d) /\
  0 <= hour d <= 23 /\ 0 <= minute d <= 59 /\ 0 <= second d <= 59 /\
  0 <= microsecond d <= 999999 /\
  match tz d with
  | Some (tz_offset off) => - 86400000000 < off < 86400000000
  | _ => True
  end.

Definition toordinal (d : datetime) : Z := _ymd2ord (year d) (month d) (day d).

(** The wall-clock reading as microseconds since the start of ordinal 0:
    the [timedelta] that [__add__] builds from the fields. *)
Definition wall_microseconds (d : datetime) : Z :=
  (((toordinal d * 24 + hour d) * 60 + minute d) * 60 + second d) * 1000000
  + microsecond d.

(** [self + delta] for a [timedelta] of [delta] microseconds, with the time
    zone of [self] kept: the sum is normalised to days, seconds and
    microseconds, and has to fall on a day in [1, _MAXORDINAL]; [None] stands
    for [OverflowError]. *)
Definition add_timedelta (d : datetime) (delta : Z) : option datetime :=
  let t := wall_microseconds d + delta in
  let days := t / 86400000000 in
  let seconds := (t mod 86400000000) / 1000000 in
  let us := t mod 1000000 in
  if (0 <? days) && (days <=? _MAXORDINAL) then
    let '(y, m, dd) := _ord2ymd days in
    Some {| year := y; month := m; day := dd;
            hour := seconds / 3600; minute := (seconds mod 3600) / 60;
            second := seconds mod 60;
            microsecond := us; tz := tz d |}
  else None.

(** [self - offset] is [self + -offset]. *)
Definition sub_timedelta (d : datetime) (offset : Z) : option datetime :=
  add_timedelta d (- offset).

(** [d.replace(tzinfo=t)] *)
Definition replace_tzinfo (d : datetime) (t : option tzinfo) : datetime :=
  {| year := year d; month := month d; day := day d; hour := hour d;
     minute := minute d; second := second d; microsecond := microsecond d;
     tz := t |}.

(** [timezone.utc.fromutc(d)] adds the offset of UTC, which is zero. *)
Definition fromutc (d : datetime) : option datetime := add_timedelta d 0.

(** [self - offset], attached to [timezone.utc] and handed to its
    [fromutc]. *)
Definition to_utc (d : datetime) (offset : Z) : option datetime :=
  match sub_timedelta d offset with
  | Some u => fromutc (replace_tzinfo u (Some timezone_utc))
  | None => None
  end.

(** [d.astimezone(timezone.utc)]: [None] stands for a raised exception. A
    timestamp attached to [timezone.utc] itself is returned as it is. A naive
    timestamp is read in the local time zone of the system: [local_utcoffset d]
    is the outcome of that lookup, either the offset of the zone at that
    timestamp or the exception the lookup raises (it cannot place every
    timestamp: near the first and the last day of the calendar, and wherever
    the platform refuses the timestamp). *)
Definition astimezone_utc (local_utcoffset : datetime -> Z + exn) (d : datetime)
  : option datetime :=
  match tz d with
  | Some timezone_utc => Some d
  | Some (tz_offset off) => to_utc d off
  | None =>
      match local_utcoffset d with
      | inl off => to_utc d off
      | inr _ => None
      end
  end.

(** The exception that [d.astimezone(timezone.utc)] raises when it raises:
    the one of the lookup of the local time zone, and [OverflowError] when
    the subtraction of the offset leaves the calendar. *)
Definition astimezone_utc_error (local_utcoffset : datetime -> Z + exn)
  (d : datetime) : exn :=
  match tz d with
  | None =>
      match local_utcoffset d with
      | inr e => e
      | inl _ => OverflowError
      end
  | Some _ => OverflowError
  end.

(** The last [w] decimal digits of [n]: ["%0wd" % n] for [0 <= n < 10**w]. *)
Fixpoint zero_padded (w : nat) (n : Z) : string :=
  match w with
  | O => EmptyString
  | S w' =>
      zero_padded w' (n / 10)
      +:+ String (ascii_of_nat (48 + Z.to_nat (n mod 10))) EmptyString
  end.

(** [_format_offset] *)
Definition _format_offset (t : option tzinfo) : string :=
  match t with
  | None => ""
  | Some z =>
      let off := match z with timezone_utc => 0 | tz_offset o => o end in
      let sign := if off <? 0 then "-" else "+" in
      let off := Z.abs off in
      let hh := off / 3600000000 in
      let mm := (off mod 3600000000) / 60000000 in
      let ss := off mod 60000000 in
      sign +:+ zero_padded 2 hh +:+ ":" +:+ zero_padded 2 mm
      +:+ (if ss =? 0 then ""
           else ":" +:+ zero_padded 2 (ss / 1000000)
                +:+ (if ss mod 1000000 =? 0 then ""
                     else "." +:+ zero_padded 6 (ss mod 1000000)))
  end.

(** [d.isoformat()], with the default separator and time precision. *)
Definition isoformat (d : datetime) : string :=
  zero_padded 4 (year d) +:+ "-" +:+ zero_padded 2 (month d) +:+ "-"
  +:+ zero_padded 2 (day d) +:+ "T"
  +:+ zero_padded 2 (hour d) +:+ ":" +:+ zero_padded 2 (minute d) +:+ ":"
  +:+ zero_padded 2 (second d)
  +:+ (if microsecond d =? 0 then "" else "." +:+ zero_padded 6 (microsecond d))
  +:+ _format_offset (tz d).

(** ** Enumerations of [pyalgotrading.constants] *)

Inductive TradingType : Type := BACKTESTING | PAPERTRADING | REALTRADING.

Inductive TradingReportType : Type := PNL_TABLE | ORDER_HISTORY.

(** [trading_type.name] *)
Definition TradingType_name (t : TradingType) : string :=
  match t with
  | BACKTESTING => "BACKTESTING"
  | PAPERTRADING => "PAPERTRADING"
  | REALTRADING => "REALTRADING"
  end.

(** ** Requests and responses *)

(** The arguments of [requests.request]. *)
Record Request : Type := mkRequest {
  req_method : string;
  req_headers : value;
  req_url : string;
  req_params : value;
  req_json : value
}.

(** What the dispatcher reads of a response [r]: [r.status_code], the body,
    and [r.json()], which is [None] when decoding raises [JSONDecodeError]. *)
Record Response : Type := mkResponse {
  status_code : Z;
  body : string;
  json : option value
}.

(** Modelled from the spec: [pyalgotrading.utils.func.get_raw_response] is
    not among the sources; the spec has the raw body "captured verbatim (not
    JSON-parsed)", so it returns the body of the response unchanged. *)
Definition get_raw_response (r : Response) : string := body r.

(** ** The client and the world around it *)

Record AlgoBullsAPI : Type := mkAlgoBullsAPI {
  headers : value;
  page_size : Z;
  key_backtesting : gmap string value;
  key_papertrading : gmap string value;
  key_realtrading : gmap string value
}.

(** [sent] and [stdout] have the most recent entry first. *)
Record World : Type := mkWorld {
  self : AlgoBullsAPI;
  sent : list Request;
  stdout : list string
}.

(** [AlgoBullsAPI.__init__]; the attribute [connection] is never read by the
    class and the compiled [pattern] is the function [pattern_sub]. *)
Definition init : AlgoBullsAPI :=
  {| headers := VNone; page_size := 1000;
     key_backtesting := ∅; key_papertrading := ∅; key_realtrading := ∅ |}.

Definition new_world : World :=
  {| self := init; sent := []; stdout := [] |}.

(** [set_access_token] *)
Definition set_access_token (access_token : string) (a : AlgoBullsAPI)
  : AlgoBullsAPI :=
  {| headers := VDict [("Authorization", VStr access_token)];
     page_size := page_size a;
     key_backtesting := key_backtesting a;
     key_papertrading := key_papertrading a;
     key_realtrading := key_realtrading a |}.

(** ** The monad of methods: state that survives a raised exception *)

Inductive Result (A : Type) : Type :=
| Return (a : A)
| Raise (e : exn).

Arguments Return {A} a.
Arguments Raise {A} e.

Definition M (A : Type) : Type := World -> Result A * World.

Definition ret {A : Type} (a : A) : M A := fun w => (Return a, w).

Definition raise {A : Type} (e : exn) : M A := fun w => (Raise e, w).

Definition bind {A B : Type} (m : M A) (k : A -> M B) : M B :=
  fun w =>
    match m w with
    | (Return a, w') => k a w'
    | (Raise e, w') => (Raise e, w')
    end.

Notation "'let!' x ':=' m 'in' k" := (bind m (fun x => k))
  (at level 10, x name, m at level 100, k at level 200).

Notation "m ';;;' k" := (bind m (fun _ => k))
  (at level 100, k at level 200, right associativity).

(** The line terminator that [print] appends by default. *)
Definition newline : string := String (ascii_of_nat 10) EmptyString.

(** [print(text, end=end_)] *)
Definition print (text end_ : string) : M unit :=
  fun w =>
    (Return tt,
     {| self := self w; sent := sent w; stdout := (text +:+ end_) :: stdout w |}).

(** Reading an attribute of [self]. *)
Definition get_self {A : Type} (f : AlgoBullsAPI -> A) : M A :=
  fun w => (Return (f (self w)), w).

(** Replacing [self] by an updated instance. *)
Definition put_self (a : AlgoBullsAPI) : M unit :=
  fun w => (Return tt, {| self := a; sent := sent w; stdout := stdout w |}).

(** [response.get(k)]: only a dictionary has the method. *)
Definition value_get (response : value) (k : string) : M value :=
  match response with
  | VDict d => ret (default VNone (Dict.get d k))
  | _ => raise AttributeError
  end.

(** The three private dictionaries of the key cache, by trading type. *)
Definition key_dict (t : TradingType) (a : AlgoBullsAPI) : gmap string value :=
  match t with
  | BACKTESTING => key_backtesting a
  | PAPERTRADING => key_papertrading a
  | REALTRADING => key_realtrading a
  end.

(** [self.__key_backtesting[strategy_code] = k] *)
Definition set_key_backtesting (strategy_code : string) (k : value)
  (a : AlgoBullsAPI) : AlgoBullsAPI :=
  {| headers := headers a; page_size := page_size a;
     key_backtesting := <[strategy_code := k]> (key_backtesting a);
     key_papertrading := key_papertrading a;
     key_realtrading := key_realtrading a |}.

(** [self.__key_papertrading[strategy_code] = k] *)
Definition set_key_papertrading (strategy_code : string) (k : value)
  (a : AlgoBullsAPI) : AlgoBullsAPI :=
  {| headers := headers a; page_size := page_size a;
     key_backtesting := key_backtesting a;
     key_papertrading := <[strategy_code := k]> (key_papertrading a);
     key_realtrading := key_realtrading a |}.

(** [self.__key_realtrading[strategy_code] = k] *)
Definition set_key_realtrading (strategy_code : string) (k : value)
  (a : AlgoBullsAPI) : AlgoBullsAPI :=
  {| headers := headers a; page_size := page_size a;
     key_backtesting := key_backtesting a;
     key_papertrading := key_papertrading a;
     key_realtrading := <[strategy_code := k]> (key_realtrading a) |}.

(** [d[k]] on a dictionary of the cache *)
Definition subscript (d : gmap string value) (k : string) : M value :=
  match d !! k with
  | Some v => ret v
  | None => raise KeyError
  end.

(** An exception is an instance of [AlgoBullsAPIForbiddenErrorException] or
    of [AlgoBullsAPIInsufficientBalanceErrorException]: the classes listed
    by the [except] clauses of this module. *)
Definition forbidden_or_insufficient_balance (e : exn) : bool :=
  match e with
  | APIError a =>
      match exc_kind a with
      | Forbidden | InsufficientBalance => true
      | _ => false
      end
  | _ => false
  end.

(** [try: body except (classes) as ex: handler], where [caught] tells whether
    the exception is an instance of one of the listed classes. *)
Definition try_except {A : Type} (body : M A) (caught : exn -> bool)
  (handler : exn -> M A) : M A :=
  fun w =>
    match body w with
    | (Return a, w') => (Return a, w')
    | (Raise e, w') => if caught e then handler e w' else (Raise e, w')
    end.

Definition SERVER_ENDPOINT : string := "https://api.algobulls.com/".

Section Client.

(** [requests.request]: the response of the platform to a request, which
    may depend on every request it has received before. *)
Variable transport : list Request -> Request -> Response.

Definition requests_request (rq : Request) : M Response :=
  fun w =>
    (Return (transport (sent w) rq),
     {| self := self w; sent := rq :: sent w; stdout := stdout w |}).

Definition api_error (k : ErrorKind) (method url : string) (r : Response)
  (code : Z) : exn :=
  APIError {| exc_kind := k; exc_method := method; exc_url := url;
              exc_response := get_raw_response r; exc_status_code := code |}.

Definition _send_request (method endpoint base_url : string)
  (params json_data : value)
  (requires_authorization raise_exception_unknown_status_code : bool)
  : M value :=
  let url := base_url +:+ endpoint in
  let! headers :=
    get_self (fun a => if requires_authorization then headers a else VNone) in
  let! r := requests_request
              {| req_method := method; req_headers := headers; req_url := url;
                 req_params := params; req_json := json_data |} in
  if status_code r =? 200 then
    match json r with
    | Some r_json => ret r_json
    | None => ret (VDict [("response", VStr (get_raw_response r))])
    end
  else if status_code r =? 400 then
    raise (api_error BadRequest method url r 400)
  else if status_code r =? 401 then
    raise (api_error Unauthorized method url r 401)
  else if status_code r =? 402 then
    raise (api_error InsufficientBalance method url r 402)
  else if status_code r =? 403 then
    raise (api_error Forbidden method url r 403)
  else if status_code r =? 404 then
    raise (api_error ResourceNotFound method url r 404)
  else if status_code r =? 500 then
    raise (api_error InternalServerError method url r 500)
  else if status_code r =? 504 then
    raise (api_error GatewayTimeout method url r 504)
  else if raise_exception_unknown_status_code then
    raise (api_error BaseError method url r (status_code r))
  else
    match json r with
    | Some r_json => ret r_json
    | None => raise JSONDecodeError
    end.

(** The call with [base_url] and [raise_exception_unknown_status_code] left
    out, as every method of the class makes it. *)
Definition send (method endpoint : string) (params json_data : value)
  (requires_authorization : bool) : M value :=
  _send_request method endpoint SERVER_ENDPOINT params json_data
    requires_authorization true.

(** [trading_type.value]: the members of [TradingType] are declared in
    [pyalgotrading.constants], which is not among the sources. *)
Variable TradingType_value : TradingType -> value.

(** [json.dumps] of the standard library. *)
Variable json_dumps : value -> string.

(** [ex.get_error_type()], a method of the exception classes. *)
Variable get_error_type : APIException -> string.

(** [str(v)], as an f-string formats a value. *)
Variable str : value -> string.

(** The lookup of the local time zone of the system at a naive timestamp:
    its offset from UTC in microseconds, or the exception the lookup raises. *)
Variable local_utcoffset : datetime -> Z + exn.

Definition __fetch_key (strategy_code : string) (trading_type : TradingType)
  : M value :=
  let endpoint := "v2/portfolio/strategy" in
  let json_data :=
    VDict [("strategyId", VStr strategy_code);
           ("tradingType", TradingType_value trading_type)] in
  let! response :=
    match trading_type with
    | REALTRADING => send "post" endpoint VNone json_data true
    | PAPERTRADING => send "put" endpoint VNone json_data true
    | BACKTESTING => send "patch" endpoint VNone json_data true
    end in
  let! key := value_get response "key" in
  ret key.

Definition __get_key (strategy_code : string) (trading_type : TradingType)
  : M value :=
  match trading_type with
  | BACKTESTING =>
      let! d := get_self key_backtesting in
      (if is_none (default VNone (d !! strategy_code)) then
         let! k := __fetch_key strategy_code BACKTESTING in
         let! a := get_self id in
         put_self (set_key_backtesting strategy_code k a)
       else ret tt);;;
      let! d := get_self key_backtesting in
      subscript d strategy_code
  | PAPERTRADING =>
      let! d := get_self key_papertrading in
      (if is_none (default VNone (d !! strategy_code)) then
         let! k := __fetch_key strategy_code PAPERTRADING in
         let! a := get_self id in
         put_self (set_key_papertrading strategy_code k a)
       else ret tt);;;
      let! d := get_self key_papertrading in
      subscript d strategy_code
  | REALTRADING =>
      let! d := get_self key_realtrading in
      (if is_none (default VNone (d !! strategy_code)) then
         let! k := __fetch_key strategy_code REALTRADING in
         let! a := get_self id in
         put_self (set_key_realtrading strategy_code k a)
       else ret tt);;;
      let! d := get_self key_realtrading in
      subscript d strategy_code
  end.

(** The handler shared by the [except] clauses: two lines on standard
    output, and the method ends without a [return], that is with [None]. *)
Definition print_failure (ex : exn) : M value :=
  match ex with
  | APIError a =>
      print "Fail." newline;;;
      print (get_error_type a +:+ ": " +:+ exc_response a) newline;;;
      ret VNone
  | _ => raise ex
  end.

Definition create_strategy (strategy_name strategy_details abc_version : string)
  : M value :=
  try_except
    (let json_data :=
       VDict [("strategyName", VStr strategy_name);
              ("strategyDetails", VStr strategy_details);
              ("abcVersion", VStr abc_version)] in
     let endpoint := "v3/build/python/user/strategy/code" in
     print ("Uploading strategy '" +:+ strategy_name +:+ "' ...") " ";;;
     let! response := send "post" endpoint VNone json_data true in
     print "Success." newline;;;
     ret response)
    forbidden_or_insufficient_balance print_failure.

Definition update_strategy
  (strategy_code strategy_name strategy_details abc_version : string)
  : M value :=
  let json_data :=
    VDict [("strategyId", VStr strategy_code);
           ("strategyName", VStr strategy_name);
           ("strategyDetails", VStr strategy_details);
           ("abcVersion", VStr abc_version)] in
  let endpoint := "v3/build/python/user/strategy/code" in
  let! response := send "put" endpoint VNone json_data true in
  ret response.

Definition get_all_strategies : M value :=
  let endpoint := "v3/build/python/user/strategy/code" in
  let! response := send "options" endpoint VNone VNone true in
  ret response.

Definition get_strategy_details (strategy_code : string) : M value :=
  let params := VDict [] in
  let endpoint := "v3/build/python/user/strategy/code/" +:+ strategy_code in
  let! response := send "get" endpoint params VNone true in
  ret response.

Definition search_instrument (tradingsymbol exchange : string) : M value :=
  let params :=
    VDict [("search", VStr tradingsymbol); ("exchange", VStr exchange)] in
  let endpoint := "v4/portfolio/searchInstrument" in
  let! response := send "get" endpoint params VNone false in
  ret response.

Definition delete_previous_trades (strategy : string) : M value :=
  let endpoint :=
    "v3/build/python/user/strategy/deleteAll?strategyId=" +:+ strategy in
  let! response := send "delete" endpoint VNone VNone true in
  ret response.

(** The pair [(key, response)] is returned as a list of two values. *)
Definition set_strategy_config (strategy_code : string) (strategy_config : value)
  (trading_type : TradingType) : M value :=
  let! key := __get_key strategy_code trading_type in
  let endpoint := "v4/portfolio/tweak/" +:+ str key +:+ "?isPythonBuild=true" in
  print "Setting Strategy Config..." " ";;;
  let! response := send "post" endpoint VNone strategy_config true in
  print "Success." newline;;;
  ret (VList [key; response]).

Definition map_trading_type_to_date_key (t : TradingType) : string :=
  match t with
  | REALTRADING => "liveDataTime"
  | PAPERTRADING => "backDataTime"
  | BACKTESTING => "backDataDate"
  end.

(** [ts.astimezone(timezone.utc).replace(tzinfo=None).isoformat()] *)
Definition utc_isoformat (ts : datetime) : M string :=
  match astimezone_utc local_utcoffset ts with
  | Some u => ret (isoformat (replace_tzinfo u None))
  | None => raise (astimezone_utc_error local_utcoffset ts)
  end.

(** The default of the parameter [initial_funds_virtual]. *)
Definition default_initial_funds_virtual : value := VFloat 1 9.

(** [initial_funds_virtual] is [None] when the caller leaves the argument
    out, and [broker_details] is [VNone] when left out. *)
Definition start_strategy_algotrading (strategy_code : string)
  (start_timestamp end_timestamp : datetime) (trading_type : TradingType)
  (lots : Z) (location : string) (initial_funds_virtual : option value)
  (broker_details : value) : M value :=
  let initial_funds_virtual :=
    default default_initial_funds_virtual initial_funds_virtual in
  try_except
    (let! key := __get_key strategy_code trading_type in
     let! start_iso := utc_isoformat start_timestamp in
     let! end_iso := utc_isoformat end_timestamp in
     let execute_config :=
       [(map_trading_type_to_date_key trading_type,
         VList [VStr start_iso; VStr end_iso]);
        ("isLiveDataTestMode",
         VBool match trading_type with
               | PAPERTRADING | REALTRADING => true
               | BACKTESTING => false
               end);
        ("customizationsQuantity", VInt lots);
        ("brokingDetails", broker_details);
        ("mode", VStr (TradingType_name trading_type))] in
     let params := VNone in
     let endpoint_config :=
       match trading_type with
       | PAPERTRADING | BACKTESTING =>
           ("v5/portfolio/strategies?isPythonBuild=true&isLive=false&location="
            +:+ location,
            Dict.set execute_config "initialFundsVirtual" initial_funds_virtual)
       | REALTRADING =>
           ("v5/portfolio/strategies?isPythonBuild=true&isLive=true&location="
            +:+ location,
            execute_config)
       end in
     let endpoint := fst endpoint_config in
     let execute_config := snd endpoint_config in
     let json_data :=
       VDict [("method", VStr "update"); ("newVal", VInt 1); ("key", key);
              ("record",
               VDict [("status", VInt 0); ("lots", VInt lots);
                      ("executeConfig", VDict execute_config)]);
              ("dataIndex", VStr "executeConfig")] in
     print ("Submitting " +:+ TradingType_name trading_type +:+ " job...") " ";;;
     let! response := send "patch" endpoint params json_data true in
     print "Success." newline;;;
     ret response)
    forbidden_or_insufficient_balance print_failure.

Definition stop_strategy_algotrading (strategy_code : string)
  (trading_type : TradingType) : M value :=
  let endpoint := "v5/portfolio/strategies" in
  try_except
    (let! key := __get_key strategy_code trading_type in
     let json_data :=
       VDict [("method", VStr "update"); ("newVal", VInt 0); ("key", key);
              ("record", VDict [("status", VInt 2)]);
              ("dataIndex", VStr "executeConfig")] in
     print ("Stopping " +:+ TradingType_name trading_type +:+ " job...") " ";;;
     let! response := send "patch" endpoint VNone json_data true in
     print "Success." newline;;;
     ret response)
    forbidden_or_insufficient_balance print_failure.

Definition get_job_status (strategy_code : string) (trading_type : TradingType)
  : M value :=
  let! key := __get_key strategy_code trading_type in
  let params := VDict [("key", key)] in
  let endpoint := "v2/user/strategy/status" in
  let! response := send "get" endpoint params VNone true in
  ret response.

Definition is_realtrading (t : TradingType) : bool :=
  match t with REALTRADING => true | _ => false end.

Definition get_logs (strategy_code : string) (trading_type : TradingType)
  (initial_next_token : value) : M value :=
  let! key := __get_key strategy_code trading_type in
  let endpoint := "v4/user/strategy/logs" in
  let! limit := get_self page_size in
  let json_data :=
    VDict [("key", key); ("nextForwardToken", initial_next_token);
           ("limit", VInt limit); ("direction", VStr "forward");
           ("type", VStr "userLogs")] in
  let params :=
    VDict [("isPythonBuild", VBool true);
           ("isLive", VBool (is_realtrading trading_type))] in
  let! response := send "post" endpoint params json_data true in
  ret response.

Definition get_reports (strategy_code : string) (trading_type : TradingType)
  (report_type : TradingReportType) (country : string) (current_page : Z)
  : M value :=
  let! key := __get_key strategy_code trading_type in
  let! endpoint_params :=
    match report_type with
    | PNL_TABLE =>
        let _filter :=
          json_dumps (VDict [("tradingType", TradingType_value trading_type)]) in
        ret ("v4/book/pl/data",
             VDict [("pageSize", VInt 0); ("isPythonBuild", VStr "true");
                    ("strategyId", VStr strategy_code);
                    ("isLive", VBool (is_realtrading trading_type));
                    ("country", VStr country); ("filters", VStr _filter)])
    | ORDER_HISTORY =>
        let! size := get_self page_size in
        ret ("v5/build/python/user/order/charts",
             VDict [("strategyId", VStr strategy_code); ("country", VStr country);
                    ("currentPage", VInt current_page); ("pageSize", VInt size);
                    ("isLive", VBool (is_realtrading trading_type))])
    end in
  let! response :=
    send "get" (fst endpoint_params) (snd endpoint_params) VNone true in
  ret response.

End Client.


(** ** Vocabulary of the statements *)

(** The request that a call of [_send_request] hands to the transport. *)
Definition request_of (method endpoint base_url : string)
  (params json_data : value) (requires_authorization : bool) (w : World)
  : Request :=
  {| req_method := method;
     req_headers := if requires_authorization then headers (self w) else VNone;
     req_url := base_url +:+ endpoint;
     req_params := params; req_json := json_data |}.

(** The world after one more request has gone out. *)
Definition after_request (rq : Request) (w : World) : World :=
  {| self := self w; sent := rq :: sent w; stdout := stdout w |}.

(** The table of the spec: status code and the error kind named for it. *)
Definition error_kind_table : list (Z * ErrorKind) :=
  [(400, BadRequest); (401, Unauthorized); (402, InsufficientBalance);
   (403, Forbidden); (404, ResourceNotFound); (500, InternalServerError);
   (504, GatewayTimeout)].

Definition recognised_status_codes : list Z :=
  [200; 400; 401; 402; 403; 404; 500; 504].

(** The HTTP verb of the registration call of each trading type. *)
Definition registration_verb (t : TradingType) : string :=
  match t with
  | REALTRADING => "post"
  | PAPERTRADING => "put"
  | BACKTESTING => "patch"
  end.

(** The registration request of [__fetch_key] for a strategy and a trading
    type ([wire] is the [value] attribute of the members of [TradingType]). *)
Definition registration_request (wire : TradingType -> value)
  (strategy_code : string) (t : TradingType) (w : World) : Request :=
  request_of (registration_verb t) "v2/portfolio/strategy" SERVER_ENDPOINT VNone
    (VDict [("strategyId", VStr strategy_code); ("tradingType", wire t)])
    true w.

(** What the cache holds for a pair: [self.__key_<type>.get(strategy_code)]. *)
Definition cached (strategy_code : string) (t : TradingType) (a : AlgoBullsAPI)
  : value :=
  default VNone (key_dict t a !! strategy_code).

(** [self.__key_<type>[strategy_code] = k], by trading type. *)
Definition set_key (t : TradingType) (strategy_code : string) (k : value)
  (a : AlgoBullsAPI) : AlgoBullsAPI :=
  match t with
  | BACKTESTING => set_key_backtesting strategy_code k a
  | PAPERTRADING => set_key_papertrading strategy_code k a
  | REALTRADING => set_key_realtrading strategy_code k a
  end.

Definition with_self (a : AlgoBullsAPI) (w : World) : World :=
  {| self := a; sent := sent w; stdout := stdout w |}.

(** [n] calls of [__get_key] one after the other for the same pair: the
    results in order, and the world after the last call. *)
Fixpoint get_key_calls (transport : list Request -> Request -> Response)
  (wire : TradingType -> value) (n : nat) (strategy_code : string)
  (t : TradingType) (w : World) : list (Result value) * World :=
  match n with
  | O => ([], w)
  | S n' =>
      let (r, w1) := __get_key transport wire strategy_code t w in
      let (rs, w2) := get_key_calls transport wire n' strategy_code t w1 in
      (r :: rs, w2)
  end.


(** No character of the string is an upper-case ASCII letter. *)
Fixpoint no_upper (s : string) : bool :=
  match s with
  | EmptyString => true
  | String c s' => negb (is_upper c) && no_upper s'
  end.

(** An item with its key in snake case and its value as it is. *)
Definition convert_item (kv : string * value) : string * value :=
  (snake_case (fst kv), snd kv).


(** The offset from UTC of an aware timestamp, in microseconds; a naive
    timestamp has none of its own. *)
Definition utcoffset (d : datetime) : option Z :=
  match tz d with
  | Some timezone_utc => Some 0
  | Some (tz_offset off) => Some off
  | None => None
  end.

(** The instant an aware timestamp denotes, as microseconds of UTC since
    the start of ordinal 0. *)
Definition utc_microseconds (d : datetime) : option Z :=
  match utcoffset d with
  | Some off => Some (wall_microseconds d - off)
  | None => None
  end.

(** The instants on the days that [datetime] can represent: not before
    0001-01-01 and not after 9999-12-31. *)
Definition in_calendar (t : Z) : Prop :=
  86400000000 <= t < (_MAXORDINAL + 1) * 86400000000.

(** The timestamp is aware and its instant, read in UTC, is in the
    calendar. *)
Definition representable_in_utc (d : datetime) : Prop :=
  match utc_microseconds d with
  | Some t => in_calendar t
  | None => False
  end.

(** The timestamp is aware and its instant, read in UTC, is outside the
    calendar. *)
Definition unrepresentable_in_utc (d : datetime) : Prop :=
  match utc_microseconds d with
  | Some t => ~ in_calendar t
  | None => False
  end.

(** The test run on each day of one cycle of 400 years: [_ord2ymd] gives a
    date of the calendar, within the first 400 years (within the first 399
    when the last year of the cycle has not begun), and [_ymd2ord] takes it
    back to the day. *)
Definition civil_check (n : Z) : bool :=
  let '(y, m, d) := _ord2ymd n in
  (1 <=? y) && (y <=? 400) && ((_DI400Y - 366 <? n) || (y <=? 399))
  && (1 <=? m) && (m <=? 12) && (1 <=? d) && (d <=? _days_in_month y m)
  && (_ymd2ord y m d =? n).

(** [p] holds of the [k] integers from [i] on. *)
Fixpoint all_from (k : nat) (i : Z) (p : Z -> bool) : bool :=
  match k with
  | O => true
  | S k' => p i && all_from k' (i + 1) p
  end.


(** The error kind under which the dispatcher reports a status code other
    than 200 when unknown codes are to be raised: the kind the table names,
    and the generic one for every other code. *)
Fixpoint lookup_kind (table : list (Z * ErrorKind)) (code : Z) : ErrorKind :=
  match table with
  | [] => BaseError
  | (c, k) :: table' => if code =? c then k else lookup_kind table' code
  end.

(** The exception the dispatcher builds for request [rq] answered by [r]. *)
Definition error_for (rq : Request) (r : Response) : APIException :=
  {| exc_kind := lookup_kind error_kind_table (status_code r);
     exc_method := req_method rq; exc_url := req_url rq;
     exc_response := body r; exc_status_code := status_code r |}.

(** A reading of "an error of the dispatcher reaches the operation": the
    operation only adds requests to those already sent, and whenever any of
    the requests it sent was answered with a status other than 200, that
    request is the last one it sent, and its result and final world satisfy
    [P] at the exception of that answer. *)
Definition on_error_status (transport : list Request -> Request -> Response)
  {A : Type} (op : M A) (P : APIException -> Result A -> World -> Prop) : Prop :=
  forall w, exists new,
    sent (snd (op w)) = new ++ sent w
    /\ forall later rq earlier,
         new = later ++ rq :: earlier ->
         let r := transport (earlier ++ sent w) rq in
         status_code r <> 200 ->
         later = [] /\ P (error_for rq r) (fst (op w)) (snd (op w)).

(** The operation raises the classified error to its caller. *)
Definition propagates (transport : list Request -> Request -> Response)
  {A : Type} (op : M A) : Prop :=
  on_error_status transport op (fun a res _ => res = Raise (APIError a)).

(** The operation ends without a value and with two lines of log for the
    Forbidden and InsufficientBalance kinds, and raises every other kind. *)
Definition soft_lands (transport : list Request -> Request -> Response)
  (get_error_type : APIException -> string) (op : M value) : Prop :=
  on_error_status transport op
    (fun a res w' =>
       match exc_kind a with
       | Forbidden | InsufficientBalance =>
           res = Return VNone
           /\ exists earlier,
               stdout w' =
               ((get_error_type a +:+ ": " +:+ exc_response a) +:+ newline)
               :: ("Fail." +:+ newline) :: earlier
       | _ => res = Raise (APIError a)
       end).

(** A computation that sends no request. *)
Definition silent {A : Type} (op : M A) : Prop :=
  forall w, sent (snd (op w)) = sent w.

(** The execution descriptor inside the body of a start request. *)
Definition execute_config_of (rq : Request) : option (list (string * value)) :=
  match req_json rq with
  | VDict j =>
      match Dict.get j "record" with
      | Some (VDict record) =>
          match Dict.get record "executeConfig" with
          | Some (VDict config) => Some config
          | _ => None
          end
      | _ => None
      end
  | _ => None
  end.

(** The query parameters of a request, when they are a dictionary. *)
Definition params_of (rq : Request) : list (string * value) :=
  match req_params rq with
  | VDict p => p
  | _ => []
  end.


(** [u] is the reading in UTC of the instant that the aware timestamp [d]
    denotes. *)
Definition utc_reading_of (d u : datetime) : Prop :=
  valid_datetime u /\ tz u = Some timezone_utc
  /\ utc_microseconds d = Some (wall_microseconds u).

(** The field name of the date range, as the spec lists it. *)
Definition date_key (t : TradingType) : string :=
  match t with
  | BACKTESTING => "backDataDate"
  | PAPERTRADING => "backDataTime"
  | REALTRADING => "liveDataTime"
  end.


(** ** The public methods as one type of calls *)

(** A call of a public method of the class with its arguments. *)
Inductive Call : Type :=
| CreateStrategy (strategy_name strategy_details abc_version : string)
| UpdateStrategy
    (strategy_code strategy_name strategy_details abc_version : string)
| GetAllStrategies
| GetStrategyDetails (strategy_code : string)
| SearchInstrument (tradingsymbol exchange : string)
| DeletePreviousTrades (strategy : string)
| SetStrategyConfig (strategy_code : string) (strategy_config : value)
    (trading_type : TradingType)
| StartStrategyAlgotrading (strategy_code : string)
    (start_timestamp end_timestamp : datetime) (trading_type : TradingType)
    (lots : Z) (location : string) (initial_funds_virtual : option value)
    (broker_details : value)
| StopStrategyAlgotrading (strategy_code : string) (trading_type : TradingType)
| GetJobStatus (strategy_code : string) (trading_type : TradingType)
| GetLogs (strategy_code : string) (trading_type : TradingType)
    (initial_next_token : value)
| GetReports (strategy_code : string) (trading_type : TradingType)
    (report_type : TradingReportType) (country : string) (current_page : Z).

(** The strategy and trading type whose key the method resolves first, for
    the methods that call [__get_key]. *)
Definition resolved_pair (c : Call) : option (string * TradingType) :=
  match c with
  | SetStrategyConfig code _ t
  | StartStrategyAlgotrading code _ _ t _ _ _ _
  | StopStrategyAlgotrading code t
  | GetJobStatus code t
  | GetLogs code t _
  | GetReports code t _ _ _ => Some (code, t)
  | _ => None
  end.

(** The method passes [requires_authorization=False]. *)
Definition unauthenticated (c : Call) : bool :=
  match c with
  | SearchInstrument _ _ => true
  | _ => false
  end.

Section Calls.

Variable transport : list Request -> Request -> Response.
Variable TradingType_value : TradingType -> value.
Variable json_dumps : value -> string.
Variable get_error_type : APIException -> string.
Variable str : value -> string.
Variable local_utcoffset : datetime -> Z + exn.

(** Running a call. *)
Definition perform (c : Call) : M value :=
  match c with
  | CreateStrategy strategy_name strategy_details abc_version =>
      create_strategy transport get_error_type strategy_name strategy_details
        abc_version
  | UpdateStrategy strategy_code strategy_name strategy_details abc_version =>
      update_strategy transport strategy_code strategy_name strategy_details
        abc_version
  | GetAllStrategies => get_all_strategies transport
  | GetStrategyDetails strategy_code =>
      get_strategy_details transport strategy_code
  | SearchInstrument tradingsymbol exchange =>
      search_instrument transport tradingsymbol exchange
  | DeletePreviousTrades strategy => delete_previous_trades transport strategy
  | SetStrategyConfig strategy_code strategy_config trading_type =>
      set_strategy_config transport TradingType_value str strategy_code
        strategy_config trading_type
  | StartStrategyAlgotrading strategy_code start_timestamp end_timestamp
      trading_type lots location initial_funds_virtual broker_details =>
      start_strategy_algotrading transport TradingType_value get_error_type
        local_utcoffset strategy_code start_timestamp end_timestamp
        trading_type lots location initial_funds_virtual broker_details
  | StopStrategyAlgotrading strategy_code trading_type =>
      stop_strategy_algotrading transport TradingType_value get_error_type
        strategy_code trading_type
  | GetJobStatus strategy_code trading_type =>
      get_job_status transport TradingType_value strategy_code trading_type
  | GetLogs strategy_code trading_type initial_next_token =>
      get_logs transport TradingType_value strategy_code trading_type
        initial_next_token
  | GetReports strategy_code trading_type report_type country current_page =>
      get_reports transport TradingType_value json_dumps strategy_code
        trading_type report_type country current_page
  end.

End Calls.

(** Started with headers [h], the computation only adds requests to those
    already sent, at most [n] of them and each satisfying [P], and leaves
    the headers of the client as they are. *)
Definition sends {A : Type} (h : value) (n : nat) (P : Request -> Prop)
  (op : M A) : Prop :=
  forall w, headers (self w) = h ->
    exists new,
      sent (snd (op w)) = new ++ sent w
      /\ (length new <= n)%nat
      /\ Forall P new
      /\ headers (self (snd (op w))) = h.

(** The computation changes neither the client nor the requests sent. *)
Definition quiet {A : Type} (op : M A) : Prop :=
  forall w, sent (snd (op w)) = sent w /\ self (snd (op w)) = self w.

(** The computation keeps a property of the client. *)
Definition preserves {A : Type} (I : AlgoBullsAPI -> Prop) (op : M A) : Prop :=
  forall w, I (self w) -> I (self (snd (op w))).

(** The timestamp attached to [timezone.utc] whose wall clock reads [t]
    microseconds since the start of ordinal 0. *)
Definition utc_reading (t : Z) : datetime :=
  let days := t / 86400000000 in
  let seconds := (t mod 86400000000) / 1000000 in
  let '(y, m, dd) := _ord2ymd days in
  {| year := y; month := m; day := dd;
     hour := seconds / 3600; minute := (seconds mod 3600) / 60;
     second := seconds mod 60;
     microsecond := t mod 1000000; tz := Some timezone_utc |}.

(** The URL of the registration endpoint. *)
Definition registration_url : string :=
  SERVER_ENDPOINT +:+ "v2/portfolio/strategy".


(** ** Sample platforms and inputs *)

(** A platform that answers every request with the same response. *)
Definition always (r : Response) : list Request -> Request -> Response :=
  fun _ _ => r.

Definition forbidden_response : Response :=
  {| status_code := 403; body := "denied"; json := None |}.

Definition created_html_response : Response :=
  {| status_code := 201; body := "<html>created</html>"; json := None |}.

Definition created_json_response : Response :=
  {| status_code := 201; body := "{}"; json := Some (VDict []) |}.

Definition ok_text_response : Response :=
  {| status_code := 200; body := "pong"; json := None |}.

(** A platform that accepts every registration but sends no key back. *)
Definition ok_without_key_response : Response :=
  {| status_code := 200; body := "{}"; json := Some (VDict []) |}.

Definition ok_key_response : Response :=
  {| status_code := 200; body := "{key: k1}";
     json := Some (VDict [("key", VStr "k1")]) |}.

(** The members of [TradingType] with their names as values. *)
Definition name_as_value (t : TradingType) : value := VStr (TradingType_name t).


(** Two distinct keys with the same snake-case form. *)
Definition colliding_dict : list (string * value) :=
  [("aB", VInt 1); ("a_b", VInt 2)].

(** A payload with a nested object whose keys are in camel case too. *)
Definition nested_dict : list (string * value) :=
  [("strategyCode", VStr "S1");
   ("brokingDetails", VDict [("brokerName", VStr "B")])].


(** The kind of an exception as a text, for the log line. *)
Definition sample_error_type (a : APIException) : string :=
  match exc_kind a with
  | Forbidden => "Forbidden"
  | InsufficientBalance => "InsufficientBalance"
  | _ => "Error"
  end.

(** A serializer standing for [json.dumps] on the one dictionary that
    [get_reports] passes to it. *)
Definition sample_dumps (v : value) : string :=
  let quote := String (ascii_of_nat 34) EmptyString in
  match v with
  | VDict [(k, VStr s)] =>
      "{" +:+ quote +:+ k +:+ quote +:+ ": " +:+ quote +:+ s +:+ quote +:+ "}"
  | _ => "null"
  end.

(** Two calls in a row for the same pair on a platform that sends no key. *)
Definition two_calls_without_key : list (Result value) * World :=
  get_key_calls (always ok_without_key_response) name_as_value 2 "S1"
    BACKTESTING new_world.

(** 2021-08-01 09:15:00+05:30 *)
Definition start_ist : datetime :=
  {| year := 2021; month := 8; day := 1; hour := 9; minute := 15; second := 0;
     microsecond := 0; tz := Some (tz_offset 19800000000) |}.

(** 2021-08-26 15:30:00-04:00 *)
Definition end_edt : datetime :=
  {| year := 2021; month := 8; day := 26; hour := 15; minute := 30; second := 0;
     microsecond := 0; tz := Some (tz_offset (-14400000000)) |}.

(** 0001-01-01 00:00:00+01:00, an hour before the first representable
    instant of UTC. *)
Definition first_day_east : datetime :=
  {| year := 1; month := 1; day := 1; hour := 0; minute := 0; second := 0;
     microsecond := 0; tz := Some (tz_offset 3600000000) |}.

(** A system whose local time is UTC. *)
Definition local_utc (d : datetime) : Z + exn := inl 0.

(** 0001-01-01 00:00:00 with no time zone attached. *)
Definition first_day_naive : datetime :=
  {| year := 1; month := 1; day := 1; hour := 0; minute := 0; second := 0;
     microsecond := 0; tz := None |}.

(** A system whose local time is UTC and whose lookup of the local time
    zone refuses the timestamps of the year 1 with [ValueError]. *)
Definition local_utc_refusing_year_1 (d : datetime) : Z + exn :=
  if year d <=? 1 then inr ValueError else inl 0.


(** [str] on the keys the platform hands out, which are strings. *)
Definition sample_str (v : value) : string :=
  match v with
  | VStr s => s
  | _ => "None"
  end.

(** A fresh client after the key of strategy S1 for BACKTESTING has been
    registered on a platform that hands out the key k1. *)
Definition registered_world : World :=
  snd (__get_key (always ok_key_response) name_as_value "S1" BACKTESTING
         new_world).

(** 2021-08-01 03:45:00 attached to [timezone.utc]: the instant of
    [start_ist]. *)
Definition start_utc : datetime :=
  {| year := 2021; month := 8; day := 1; hour := 3; minute := 45; second := 0;
     microsecond := 0; tz := Some timezone_utc |}.

(** The exception of the dispatcher for the registration of S1 refused with
    status 403. *)
Definition registration_forbidden (t : TradingType) : exn :=
  APIError {| exc_kind := Forbidden; exc_method := registration_verb t;
              exc_url := registration_url; exc_response := "denied";
              exc_status_code := 403 |}.


(** * Properties *)

(** ** The request dispatcher *)

Section Dispatcher.

Variable transport : list Request -> Request -> Response.

(** The dispatcher as one case analysis on the response. *)
Lemma _send_request_unfold method endpoint base_url params json_data auth flag w :
  let rq := request_of method endpoint base_url params json_data auth w in
  let r := transport (sent w) rq in
  let url := base_url +:+ endpoint in
  _send_request transport method endpoint base_url params json_data auth flag w =
  ((if status_code r =? 200 then
      match json r with
      | Some r_json => Return r_json
      | None => Return (VDict [("response", VStr (body r))])
      end
    else if status_code r =? 400 then Raise (api_error BadRequest method url r 400)
    else if status_code r =? 401 then Raise (api_error Unauthorized method url r 401)
    else if status_code r =? 402 then
      Raise (api_error InsufficientBalance method url r 402)
    else if status_code r =? 403 then Raise (api_error Forbidden method url r 403)
    else if status_code r =? 404 then
      Raise (api_error ResourceNotFound method url r 404)
    else if status_code r =? 500 then
      Raise (api_error InternalServerError method url r 500)
    else if status_code r =? 504 then
      Raise (api_error GatewayTimeout method url r 504)
    else if flag then Raise (api_error BaseError method url r (status_code r))
    else match json r with
         | Some r_json => Return r_json
         | None => Raise JSONDecodeError
         end),
   after_request rq w).
Proof.
  intros rq r url. subst rq r url.
  unfold _send_request, bind, get_self, requests_request, request_of, ret,
    raise, after_request, get_raw_response.
  destruct auth; cbn beta iota;
    match goal with
    | |- context [status_code ?x =? 200] => generalize x; intros r
    end;
    repeat match goal with
           | |- context [if ?b then _ else _] => destruct b
           end;
    try destruct (json r); reflexivity.
Qed.

(** C3: a response whose status code is one of 400, 401, 402, 403, 404, 500
    and 504 makes the dispatcher raise the error kind named for that code,
    and the exception carries the method, the URL, that status code and the
    raw body of the response, whatever the body is. *)
Theorem send_request_classifies_errors
  method endpoint base_url params json_data auth flag w code kind :
  let rq := request_of method endpoint base_url params json_data auth w in
  In (code, kind) error_kind_table ->
  status_code (transport (sent w) rq) = code ->
  _send_request transport method endpoint base_url params json_data auth flag w =
  (Raise (APIError {| exc_kind := kind; exc_method := method;
                      exc_url := base_url +:+ endpoint;
                      exc_response := body (transport (sent w) rq);
                      exc_status_code := code |}),
   after_request rq w).
Proof.
  intros rq Hin Hcode.
  rewrite _send_request_unfold. fold rq. rewrite Hcode.
  simpl in Hin.
  repeat (destruct Hin as [Hin | Hin];
          [injection Hin as <- <-; reflexivity |]).
  contradiction.
Qed.

(** C6: a response with status 200 never makes the dispatcher raise: it
    returns the decoded JSON value when the body decodes, and otherwise the
    dictionary [{'response': raw body}]. *)
Theorem send_request_ok_returns
  method endpoint base_url params json_data auth flag w :
  let rq := request_of method endpoint base_url params json_data auth w in
  let r := transport (sent w) rq in
  status_code r = 200 ->
  _send_request transport method endpoint base_url params json_data auth flag w =
  (Return match json r with
          | Some decoded => decoded
          | None => VDict [("response", VStr (body r))]
          end,
   after_request rq w).
Proof.
  intros rq r Hcode.
  rewrite _send_request_unfold. fold rq. fold r. rewrite Hcode. simpl.
  destruct (json r); reflexivity.
Qed.

(** C5, amended: for a status code outside 200, 400, 401, 402, 403, 404, 500
    and 504, the dispatcher raises the generic exception with that status
    code and the raw body when the flag is set; when the flag is off and the
    body decodes as JSON, it returns the decoded value. *)
Theorem send_request_unrecognised_status
  method endpoint base_url params json_data auth w :
  let rq := request_of method endpoint base_url params json_data auth w in
  let r := transport (sent w) rq in
  ~ In (status_code r) recognised_status_codes ->
  _send_request transport method endpoint base_url params json_data auth true w =
  (Raise (APIError {| exc_kind := BaseError; exc_method := method;
                      exc_url := base_url +:+ endpoint;
                      exc_response := body r;
                      exc_status_code := status_code r |}),
   after_request rq w)
  /\ (forall decoded, json r = Some decoded ->
      _send_request transport method endpoint base_url params json_data auth
        false w = (Return decoded, after_request rq w)).
Proof.
  intros rq r Hcode.
  rewrite !_send_request_unfold. fold rq. fold r.
  assert (Hne : forall c, In c recognised_status_codes ->
                          (status_code r =? c) = false).
  { intros c Hc. apply Z.eqb_neq. intros Heq. apply Hcode. now rewrite Heq. }
  rewrite !Hne by (simpl; tauto).
  split; [reflexivity |].
  intros decoded ->. reflexivity.
Qed.

End Dispatcher.

Lemma send_request_classifies_errors_witness :
  _send_request (always forbidden_response) "get" "v2/user/strategy/status"
    SERVER_ENDPOINT VNone VNone true true new_world =
  (Raise (APIError {| exc_kind := Forbidden; exc_method := "get";
                      exc_url := SERVER_ENDPOINT +:+ "v2/user/strategy/status";
                      exc_response := "denied"; exc_status_code := 403 |}),
   after_request
     (request_of "get" "v2/user/strategy/status" SERVER_ENDPOINT VNone VNone
        true new_world) new_world).
Proof.
  apply (send_request_classifies_errors (always forbidden_response)
           "get" "v2/user/strategy/status" SERVER_ENDPOINT VNone VNone true true
           new_world 403 Forbidden).
  - simpl. tauto.
  - reflexivity.
Defined.

Lemma send_request_ok_returns_witness :
  _send_request (always ok_text_response) "get" "ping" SERVER_ENDPOINT VNone VNone
    true true new_world =
  (Return (VDict [("response", VStr "pong")]),
   after_request (request_of "get" "ping" SERVER_ENDPOINT VNone VNone true
                    new_world) new_world).
Proof.
  apply (send_request_ok_returns (always ok_text_response) "get" "ping"
           SERVER_ENDPOINT VNone VNone true true new_world).
  reflexivity.
Defined.

(** C5 as stated fails: status 201 with a body that is not JSON and the flag
    off makes the dispatcher raise [JSONDecodeError] instead of returning. *)
Lemma send_request_unrecognised_status_not_json :
  ~ In (status_code created_html_response) recognised_status_codes
  /\ fst (_send_request (always created_html_response) "get" "ping"
            SERVER_ENDPOINT VNone VNone true false new_world)
     = Raise JSONDecodeError.
Proof.
  split; [| reflexivity].
  simpl. intros H. repeat (destruct H as [H | H]; [discriminate H |]).
  exact H.
Qed.

Lemma send_request_unrecognised_status_witness :
  _send_request (always created_json_response) "get" "ping" SERVER_ENDPOINT
    VNone VNone true true new_world =
  (Raise (APIError {| exc_kind := BaseError; exc_method := "get";
                      exc_url := SERVER_ENDPOINT +:+ "ping";
                      exc_response := "{}"; exc_status_code := 201 |}),
   after_request (request_of "get" "ping" SERVER_ENDPOINT VNone VNone true
                    new_world) new_world)
  /\ (forall decoded, Some (VDict []) = Some decoded ->
      _send_request (always created_json_response) "get" "ping" SERVER_ENDPOINT
        VNone VNone true false new_world =
      (Return decoded,
       after_request (request_of "get" "ping" SERVER_ENDPOINT VNone VNone true
                        new_world) new_world)).
Proof.
  apply (send_request_unrecognised_status (always created_json_response)
           "get" "ping" SERVER_ENDPOINT VNone VNone true new_world).
  simpl. intros H. repeat (destruct H as [H | H]; [discriminate H |]).
  exact H.
Defined.

(** ** The key cache *)

Section KeyCache.

Variable transport : list Request -> Request -> Response.
Variable TradingType_value : TradingType -> value.

Abbreviation fetch_key := (__fetch_key transport TradingType_value).
Abbreviation get_key := (__get_key transport TradingType_value).

(** [__fetch_key] sends the registration request and reads the key. *)
Lemma fetch_key_unfold strategy_code t w :
  fetch_key strategy_code t w =
  match send transport (registration_verb t) "v2/portfolio/strategy" VNone
          (VDict [("strategyId", VStr strategy_code);
                  ("tradingType", TradingType_value t)]) true w with
  | (Return response, w1) => value_get response "key" w1
  | (Raise e, w1) => (Raise e, w1)
  end.
Proof.
  unfold __fetch_key, bind.
  destruct t; simpl;
    match goal with |- context [send ?a ?b ?c ?d ?e ?f ?g] =>
      destruct (send a b c d e f g) as [[response | e'] w1] end;
    try reflexivity;
    destruct (value_get response "key" w1) as [[k | e'] w2]; reflexivity.
Qed.

(** Whatever the response, a call of the dispatcher leaves the world with
    exactly one more request sent and nothing else changed. *)
Lemma send_world method endpoint params json_data auth w :
  snd (send transport method endpoint params json_data auth w) =
  after_request (request_of method endpoint SERVER_ENDPOINT params json_data
                   auth w) w.
Proof. unfold send. rewrite _send_request_unfold. reflexivity. Qed.

Lemma value_get_world response k w : snd (value_get response k w) = w.
Proof. destruct response; reflexivity. Qed.

Lemma fetch_key_world strategy_code t w :
  snd (fetch_key strategy_code t w) =
  after_request (registration_request TradingType_value strategy_code t w) w.
Proof.
  rewrite fetch_key_unfold.
  pose proof (send_world (registration_verb t) "v2/portfolio/strategy" VNone
                (VDict [("strategyId", VStr strategy_code);
                        ("tradingType", TradingType_value t)]) true w) as Hw.
  destruct (send _ _ _ _ _ _ w) as [[response | e] w1]; simpl in Hw; subst w1.
  - apply value_get_world.
  - reflexivity.
Qed.

(** A hit: the cached key is returned and the world does not change. *)
Lemma get_key_hit strategy_code t w :
  is_none (cached strategy_code t (self w)) = false ->
  get_key strategy_code t w = (Return (cached strategy_code t (self w)), w).
Proof.
  unfold cached. intros Hhit.
  destruct t; unfold __get_key, bind, get_self, subscript, key_dict in *;
    simpl in *; rewrite Hhit; simpl;
    match goal with |- context [?d !! strategy_code] =>
      destruct (d !! strategy_code) eqn:E end;
    simpl in *; try discriminate; reflexivity.
Qed.

(** A miss: the key is fetched; when the fetch returns it is stored and
    returned, and when it raises nothing is stored. *)
Lemma get_key_miss strategy_code t w :
  is_none (cached strategy_code t (self w)) = true ->
  get_key strategy_code t w =
  match fetch_key strategy_code t w with
  | (Return k, w1) =>
      (Return k, with_self (set_key t strategy_code k (self w1)) w1)
  | (Raise e, w1) => (Raise e, w1)
  end.
Proof.
  unfold cached. intros Hmiss.
  destruct t; unfold __get_key, bind, get_self, put_self, subscript, key_dict in *;
    simpl in *; rewrite Hmiss;
    match goal with |- context [__fetch_key ?a ?b ?c ?d ?e] =>
      destruct (__fetch_key a b c d e) as [[k | e'] w1] end;
    simpl; try reflexivity;
    rewrite lookup_insert_eq; reflexivity.
Qed.

Lemma cached_set_key strategy_code t k a :
  cached strategy_code t (set_key t strategy_code k a) = k.
Proof.
  unfold cached. destruct t; simpl; rewrite lookup_insert_eq; reflexivity.
Qed.

(** After a call that returned, the cache holds the key that was returned. *)
Lemma get_key_return_cached strategy_code t w k w1 :
  get_key strategy_code t w = (Return k, w1) ->
  cached strategy_code t (self w1) = k.
Proof.
  destruct (is_none (cached strategy_code t (self w))) eqn:Hc.
  - rewrite get_key_miss by exact Hc.
    destruct (fetch_key strategy_code t w) as [[k' | e] w'];
      [| discriminate].
    intros [= <- <-]. simpl. apply cached_set_key.
  - rewrite get_key_hit by exact Hc. intros [= <- <-]. reflexivity.
Qed.

(** A call sends nothing on a hit and exactly the registration request on a
    miss. *)
Lemma get_key_sent strategy_code t w :
  sent (snd (get_key strategy_code t w)) =
  if is_none (cached strategy_code t (self w)) then
    registration_request TradingType_value strategy_code t w :: sent w
  else sent w.
Proof.
  destruct (is_none (cached strategy_code t (self w))) eqn:Hc.
  - rewrite get_key_miss by exact Hc.
    pose proof (fetch_key_world strategy_code t w) as Hw.
    destruct (fetch_key strategy_code t w) as [[k | e] w1];
      simpl in *; subst w1; reflexivity.
  - rewrite get_key_hit by exact Hc. reflexivity.
Qed.

(** Once the cache holds a key other than [None], any number of calls
    return it and leave the world as it is. *)
Lemma get_key_calls_cached n strategy_code t w :
  is_none (cached strategy_code t (self w)) = false ->
  get_key_calls transport TradingType_value n strategy_code t w =
  (repeat (Return (cached strategy_code t (self w))) n, w).
Proof.
  intros Hc. induction n as [| n IH]; [reflexivity |].
  simpl. rewrite get_key_hit by exact Hc. rewrite IH. reflexivity.
Qed.

(** C2, amended: when a call of [__get_key] for a pair returns a key other
    than [None], the [n] calls for the same pair that follow it return the
    same key and send nothing, so the whole sequence issues at most one
    registration request; that request carries the verb of the trading type:
    post for REALTRADING, put for PAPERTRADING, patch for BACKTESTING. *)
Theorem get_key_registers_once n strategy_code t w k w1 :
  get_key strategy_code t w = (Return k, w1) ->
  is_none k = false ->
  let rq := registration_request TradingType_value strategy_code t w in
  get_key_calls transport TradingType_value (S n) strategy_code t w =
    (repeat (Return k) (S n), w1)
  /\ (sent w1 = sent w \/ sent w1 = rq :: sent w)
  /\ req_method rq = match t with
                     | REALTRADING => "post"
                     | PAPERTRADING => "put"
                     | BACKTESTING => "patch"
                     end
  /\ req_url rq = SERVER_ENDPOINT +:+ "v2/portfolio/strategy".
Proof.
  intros Hcall Hk rq.
  pose proof (get_key_return_cached _ _ _ _ _ Hcall) as Hcached.
  pose proof (get_key_sent strategy_code t w) as Hsent.
  rewrite Hcall in Hsent. simpl in Hsent.
  split; [| split; [| split]].
  - cbn [get_key_calls]. rewrite Hcall.
    rewrite get_key_calls_cached by (rewrite Hcached; exact Hk).
    rewrite Hcached. reflexivity.
  - destruct (is_none (cached strategy_code t (self w))); auto.
  - destruct t; reflexivity.
  - reflexivity.
Qed.

(** C7: when the cache has no key for the pair and the registration call
    raises, [__get_key] raises the same exception and stores nothing, and the
    next call for the pair sends the registration request again. *)
Theorem get_key_failure_not_cached strategy_code t w e w1 :
  is_none (cached strategy_code t (self w)) = true ->
  send transport (registration_verb t) "v2/portfolio/strategy" VNone
    (VDict [("strategyId", VStr strategy_code);
            ("tradingType", TradingType_value t)]) true w = (Raise e, w1) ->
  get_key strategy_code t w = (Raise e, w1)
  /\ self w1 = self w
  /\ is_none (cached strategy_code t (self w1)) = true
  /\ sent (snd (get_key strategy_code t w1)) =
     registration_request TradingType_value strategy_code t w1 :: sent w1.
Proof.
  intros Hmiss Hsend.
  assert (Hself : self w1 = self w).
  { pose proof (send_world (registration_verb t) "v2/portfolio/strategy" VNone
                  (VDict [("strategyId", VStr strategy_code);
                          ("tradingType", TradingType_value t)]) true w) as Hw.
    rewrite Hsend in Hw. simpl in Hw. subst w1. reflexivity. }
  assert (Hmiss1 : is_none (cached strategy_code t (self w1)) = true)
    by (rewrite Hself; exact Hmiss).
  split; [| split; [| split]]; try assumption.
  - rewrite get_key_miss by exact Hmiss.
    rewrite fetch_key_unfold, Hsend. reflexivity.
  - rewrite get_key_sent, Hmiss1. reflexivity.
Qed.

End KeyCache.

Lemma get_key_registers_once_witness :
  get_key_calls (always ok_key_response) name_as_value 3 "S1" PAPERTRADING
    new_world =
  (repeat (Return (VStr "k1")) 3,
   snd (__get_key (always ok_key_response) name_as_value "S1" PAPERTRADING
          new_world)).
Proof.
  refine (proj1 (get_key_registers_once (always ok_key_response) name_as_value
                   2 "S1" PAPERTRADING new_world (VStr "k1") _ _ _)).
  - vm_compute. reflexivity.
  - reflexivity.
Defined.

(** C2 as stated fails: a platform that answers 200 without a key is asked
    to register the same pair by each of two calls in a row. *)
Lemma get_key_registers_twice :
  fst two_calls_without_key = [Return VNone; Return VNone]
  /\ map req_method (sent (snd two_calls_without_key)) = ["patch"; "patch"]
  /\ map req_url (sent (snd two_calls_without_key)) =
     [SERVER_ENDPOINT +:+ "v2/portfolio/strategy";
      SERVER_ENDPOINT +:+ "v2/portfolio/strategy"].
Proof. vm_compute. repeat split. Qed.

Lemma get_key_failure_not_cached_witness :
  __get_key (always forbidden_response) name_as_value "S1" REALTRADING new_world
  = (Raise (APIError {| exc_kind := Forbidden; exc_method := "post";
                        exc_url := SERVER_ENDPOINT +:+ "v2/portfolio/strategy";
                        exc_response := "denied"; exc_status_code := 403 |}),
     after_request (registration_request name_as_value "S1" REALTRADING
                      new_world) new_world).
Proof.
  refine (proj1 (get_key_failure_not_cached (always forbidden_response)
                   name_as_value "S1" REALTRADING new_world _ _ _ _)).
  - reflexivity.
  - vm_compute. reflexivity.
Defined.

(** ** The key converter *)

Section Convert.

Context {V : Type}.
Implicit Types (d acc : list (string * V)) (k : string) (v : V).

Lemma dict_set_fresh acc k v :
  k ∉ Dict.keys acc -> Dict.set acc k v = acc ++ [(k, v)].
Proof.
  induction acc as [| [k' v'] acc IH]; simpl; intros Hk; [reflexivity |].
  apply not_elem_of_cons in Hk as [Hne Hk].
  destruct (String.eqb_spec k' k) as [-> | _]; [contradiction |].
  now rewrite IH.
Qed.


(** With no two keys sent to the same new key, the comprehension renames
    the keys item by item and keeps the order. *)
Lemma dict_comprehension_fold (f : string -> string) d acc :
  NoDup (Dict.keys acc ++ map f (Dict.keys d)) ->
  fold_left (fun acc kv => Dict.set acc (f (fst kv)) (snd kv)) d acc =
  acc ++ map (fun kv => (f (fst kv), snd kv)) d.
Proof.
  revert acc. induction d as [| [k v] d IH]; simpl; intros acc Hnd.
  - now rewrite app_nil_r.
  - assert (Hfresh : f k ∉ Dict.keys acc).
    { intros Hin. apply NoDup_app in Hnd as (_ & Hdisj & _).
      apply (Hdisj (f k) Hin). now left. }
    rewrite dict_set_fresh by exact Hfresh.
    rewrite IH.
    + now rewrite <- app_assoc.
    + unfold Dict.keys in *. rewrite map_app. simpl.
      rewrite <- app_assoc. exact Hnd.
Qed.

Lemma dict_comprehension_distinct (f : string -> string) d :
  NoDup (map f (Dict.keys d)) ->
  dict_comprehension f d = map (fun kv => (f (fst kv), snd kv)) d.
Proof.
  intros Hnd. unfold dict_comprehension.
  now rewrite dict_comprehension_fold.
Qed.

End Convert.

Lemma lower_char_not_upper c : is_upper (lower_char c) = false.
Proof.
  destruct c as [b0 b1 b2 b3 b4 b5 b6 b7].
  destruct b0, b1, b2, b3, b4, b5, b6, b7; reflexivity.
Qed.

Lemma lower_no_upper s : no_upper (lower s) = true.
Proof.
  induction s as [| c s IH]; simpl; [reflexivity |].
  now rewrite lower_char_not_upper, IH.
Qed.




(** ** Timestamps *)

Lemma all_from_spec k i p :
  all_from k i p = true -> forall j, i <= j < i + Z.of_nat k -> p j = true.
Proof.
  revert i. induction k as [| k IH]; intros i Hall j Hj; [lia |].
  cbn [all_from] in Hall. apply andb_true_iff in Hall as [Hi Hrest].
  destruct (Z.eq_dec j i) as [-> | Hne]; [exact Hi |].
  apply (IH (i + 1) Hrest). lia.
Qed.

Lemma civil_check_cycle : all_from (Z.to_nat _DI400Y) 1 civil_check = true.
Proof. vm_compute. reflexivity. Qed.

Lemma civil_check_ok r : 1 <= r <= _DI400Y -> civil_check r = true.
Proof.
  intros Hr. apply (all_from_spec _ _ _ civil_check_cycle).
  unfold _DI400Y in *. lia.
Qed.

Lemma is_leap_shift y q : _is_leap (y + 400 * q) = _is_leap y.
Proof.
  unfold _is_leap.
  replace ((y + 400 * q) mod 4) with (y mod 4)
    by (replace (y + 400 * q) with (y + (100 * q) * 4) by lia;
        now rewrite Z.mod_add).
  replace ((y + 400 * q) mod 100) with (y mod 100)
    by (replace (y + 400 * q) with (y + (4 * q) * 100) by lia;
        now rewrite Z.mod_add).
  replace ((y + 400 * q) mod 400) with (y mod 400)
    by (replace (y + 400 * q) with (y + q * 400) by lia;
        now rewrite Z.mod_add).
  reflexivity.
Qed.

Lemma days_before_year_shift y q :
  _days_before_year (y + 400 * q) = _days_before_year y + _DI400Y * q.
Proof.
  unfold _days_before_year, _DI400Y. cbv zeta.
  replace (y + 400 * q - 1) with (y - 1 + 400 * q) by lia.
  replace ((y - 1 + 400 * q) / 4) with ((y - 1) / 4 + 100 * q)
    by (replace (y - 1 + 400 * q) with (y - 1 + (100 * q) * 4) by lia;
        now rewrite Z.div_add).
  replace ((y - 1 + 400 * q) / 100) with ((y - 1) / 100 + 4 * q)
    by (replace (y - 1 + 400 * q) with (y - 1 + (4 * q) * 100) by lia;
        now rewrite Z.div_add).
  replace ((y - 1 + 400 * q) / 400) with ((y - 1) / 400 + q)
    by (replace (y - 1 + 400 * q) with (y - 1 + q * 400) by lia;
        now rewrite Z.div_add).
  lia.
Qed.

Lemma ymd2ord_shift y m d q :
  _ymd2ord (y + 400 * q) m d = _ymd2ord y m d + _DI400Y * q.
Proof.
  unfold _ymd2ord, _days_before_month.
  rewrite days_before_year_shift, is_leap_shift. lia.
Qed.

Lemma days_in_month_shift y m q :
  _days_in_month (y + 400 * q) m = _days_in_month y m.
Proof. unfold _days_in_month. now rewrite is_leap_shift. Qed.

(** Whole cycles of 400 years only move the year. *)
Lemma ord2ymd_shift r q :
  1 <= r <= _DI400Y ->
  _ord2ymd (r + _DI400Y * q) =
  let '(y, m, d) := _ord2ymd r in (y + 400 * q, m, d).
Proof.
  intros Hr. unfold _ord2ymd. cbv zeta.
  replace (r + _DI400Y * q - 1) with (r - 1 + q * _DI400Y) by lia.
  rewrite Z.div_add, Z.mod_add by (unfold _DI400Y; lia).
  rewrite (Z.div_small (r - 1)), (Z.mod_small (r - 1))
    by (unfold _DI400Y in *; lia).
  repeat match goal with
         | |- context [if ?b then _ else _] => destruct b
         end; f_equal; try f_equal; lia.
Qed.

(** On every day that a [datetime] can hold, [_ord2ymd] gives a date of the
    calendar and [_ymd2ord] takes that date back to the day. *)
Lemma ord2ymd_spec n :
  1 <= n <= _MAXORDINAL ->
  let '(y, m, d) := _ord2ymd n in
  1 <= y <= 9999 /\ 1 <= m <= 12 /\ 1 <= d <= _days_in_month y m
  /\ _ymd2ord y m d = n.
Proof.
  intros Hn.
  pose (q := (n - 1) / _DI400Y). pose (r := (n - 1) mod _DI400Y + 1).
  assert (Hr : 1 <= r <= _DI400Y)
    by (unfold r, _DI400Y; pose proof (Z.mod_pos_bound (n - 1) 146097); lia).
  assert (Hnq : n = r + _DI400Y * q)
    by (unfold r, q; pose proof (Z.div_mod (n - 1) _DI400Y);
        unfold _DI400Y in *; lia).
  assert (Hq : 0 <= q <= 24)
    by (unfold _MAXORDINAL, _DI400Y in *; lia).
  rewrite Hnq, ord2ymd_shift by exact Hr.
  pose proof (civil_check_ok r Hr) as Hck. unfold civil_check in Hck.
  destruct (_ord2ymd r) as [[y m] d].
  repeat (apply andb_true_iff in Hck as [Hck ?]).
  rewrite days_in_month_shift, ymd2ord_shift.
  assert (Hy : q = 24 -> y <= 399).
  { intros ->.
    match goal with H : (_ || _) = true |- _ =>
      apply orb_true_iff in H as [H | H] end;
      unfold _MAXORDINAL, _DI400Y in *; lia. }
  unfold _DI400Y in *. lia.
Qed.

(** Adding a duration gives a timestamp whose wall-clock reading is the
    sum, as long as the sum falls on a representable day. *)
Lemma add_timedelta_spec d delta :
  86400000000 <= wall_microseconds d + delta < (_MAXORDINAL + 1) * 86400000000 ->
  exists u,
    add_timedelta d delta = Some u
    /\ wall_microseconds u = wall_microseconds d + delta
    /\ tz u = tz d
    /\ 1 <= year u <= 9999 /\ 1 <= month u <= 12
    /\ 1 <= day u <= _days_in_month (year u) (month u)
    /\ 0 <= hour u <= 23 /\ 0 <= minute u <= 59 /\ 0 <= second u <= 59
    /\ 0 <= microsecond u <= 999999.
Proof.
  intros Ht. unfold add_timedelta. cbv zeta.
  set (t := wall_microseconds d + delta) in *.
  assert (Hdays : 1 <= t / 86400000000 <= _MAXORDINAL).
  { unfold _MAXORDINAL in *. split.
    - apply Z.div_le_lower_bound; lia.
    - assert (t / 86400000000 < 3652059 + 1); [| lia].
      apply Z.div_lt_upper_bound; lia. }
  replace ((0 <? t / 86400000000) && (t / 86400000000 <=? _MAXORDINAL))
    with true by (symmetry; apply andb_true_iff; lia).
  pose proof (ord2ymd_spec _ Hdays) as Hord.
  destruct (_ord2ymd (t / 86400000000)) as [[y m] dd].
  destruct Hord as (Hy & Hm & Hd & Hback).
  eexists. split; [reflexivity |].
  unfold wall_microseconds, toordinal. cbn [year month day hour minute second
    microsecond tz].
  rewrite Hback.
  split; [| split; [reflexivity | repeat split; try lia]].
  all: Z.div_mod_to_equations; lia.
Qed.

Lemma wall_microseconds_replace_tzinfo u t :
  wall_microseconds (replace_tzinfo u t) = wall_microseconds u.
Proof. reflexivity. Qed.

(** The conversion of a timestamp with a given offset gives the reading in
    UTC of the instant, as long as the instant is representable. *)
Lemma to_utc_spec d off :
  86400000000 <= wall_microseconds d - off < (_MAXORDINAL + 1) * 86400000000 ->
  exists u,
    to_utc d off = Some u
    /\ valid_datetime u /\ tz u = Some timezone_utc
    /\ wall_microseconds u = wall_microseconds d - off.
Proof.
  intros Ht. unfold to_utc, sub_timedelta, fromutc.
  destruct (add_timedelta_spec d (- off)) as (u1 & -> & Hwall1 & _);
    [lia |].
  destruct (add_timedelta_spec (replace_tzinfo u1 (Some timezone_utc)) 0)
    as (u & -> & Hwall & Htz & Hfields);
    [rewrite wall_microseconds_replace_tzinfo; lia |].
  rewrite wall_microseconds_replace_tzinfo in Hwall.
  exists u. split; [reflexivity |].
  split; [| split; [exact Htz | lia]].
  unfold valid_datetime. rewrite Htz. cbn [tz replace_tzinfo].
  repeat split; lia.
Qed.

Lemma string_app_assoc (a b c : string) : (a +:+ b) +:+ c = a +:+ (b +:+ c).
Proof.
  induction a as [| x a IH]; [reflexivity |].
  change (String x ((a +:+ b) +:+ c) = String x (a +:+ (b +:+ c))).
  now rewrite IH.
Qed.

(** The text of an aware timestamp is the text of its naive copy followed
    by the offset; for UTC the offset reads [+00:00]. *)
Lemma isoformat_utc_suffix u :
  tz u = Some timezone_utc ->
  isoformat u = isoformat (replace_tzinfo u None) +:+ "+00:00".
Proof.
  intros Hu. unfold isoformat. rewrite Hu.
  cbn [replace_tzinfo year month day hour minute second microsecond tz].
  change (_format_offset (Some timezone_utc)) with "+00:00".
  change (_format_offset None) with "".
  rewrite !string_app_assoc. reflexivity.
Qed.

(** [astimezone(timezone.utc)] returns, for every timestamp whose instant is
    representable, the reading of that instant in UTC. *)
Lemma astimezone_utc_spec local_utcoffset d :
  valid_datetime d ->
  representable_in_utc d ->
  exists u, astimezone_utc local_utcoffset d = Some u /\ utc_reading_of d u.
Proof.
  intros Hvalid Hrep.
  unfold representable_in_utc, utc_microseconds, utcoffset, in_calendar in Hrep.
  unfold astimezone_utc, utc_reading_of, utc_microseconds, utcoffset.
  destruct (tz d) as [[| off] |] eqn:Etz; [| | contradiction].
  - exists d. split; [reflexivity |]. split; [exact Hvalid |].
    split; [exact Etz |]. f_equal. lia.
  - destruct (to_utc_spec d off Hrep) as (u & -> & Hu & Htz & Hwall).
    exists u. split; [reflexivity |].
    split; [exact Hu |]. split; [exact Htz |]. now rewrite Hwall.
Qed.

(** ** How errors of the dispatcher leave the operations *)

Section ErrorPolicy.

Variable transport : list Request -> Request -> Response.

Lemma silent_on_error_status {A : Type} (op : M A) P :
  silent op -> on_error_status transport op P.
Proof.
  intros Hs w. exists []. split; [apply Hs |].
  intros later rq earlier Hnew. destruct later; discriminate Hnew.
Qed.

Lemma silent_ret {A : Type} (a : A) : silent (ret a).
Proof. intros w. reflexivity. Qed.

Lemma silent_raise {A : Type} e : silent (@raise A e).
Proof. intros w. reflexivity. Qed.

Lemma silent_print text end_ : silent (print text end_).
Proof. intros w. reflexivity. Qed.

Lemma silent_get_self {A : Type} (f : AlgoBullsAPI -> A) : silent (get_self f).
Proof. intros w. reflexivity. Qed.

Lemma silent_put_self a : silent (put_self a).
Proof. intros w. reflexivity. Qed.

Lemma silent_value_get response k : silent (value_get response k).
Proof. intros w. destruct response; reflexivity. Qed.

Lemma silent_subscript d k : silent (subscript d k).
Proof. intros w. unfold subscript. destruct (d !! k); reflexivity. Qed.

Lemma silent_utc_isoformat local_utcoffset ts :
  silent (utc_isoformat local_utcoffset ts).
Proof.
  intros w. unfold utc_isoformat.
  destruct (astimezone_utc local_utcoffset ts); reflexivity.
Qed.

Lemma lookup_kind_table code kind :
  In (code, kind) error_kind_table -> lookup_kind error_kind_table code = kind.
Proof.
  simpl. intros H.
  repeat (destruct H as [H | H]; [injection H as <- <-; reflexivity |]).
  contradiction.
Qed.

(** With unknown status codes raised, every status other than 200 makes the
    dispatcher raise the exception of that answer. *)
Lemma send_raises method endpoint params json_data auth w :
  let rq := request_of method endpoint SERVER_ENDPOINT params json_data auth w in
  let r := transport (sent w) rq in
  status_code r <> 200 ->
  send transport method endpoint params json_data auth w =
  (Raise (APIError (error_for rq r)), after_request rq w).
Proof.
  intros rq r Hcode. unfold send. rewrite _send_request_unfold.
  fold rq. fold r. unfold error_for, api_error, get_raw_response. simpl.
  destruct (status_code r =? 200) eqn:E200; [apply Z.eqb_eq in E200; lia |].
  repeat match goal with
         | |- context [status_code r =? ?c] =>
             let E := fresh "E" in
             destruct (status_code r =? c) eqn:E;
             [apply Z.eqb_eq in E; rewrite E; reflexivity |]
         end.
  reflexivity.
Qed.

(** Where a request sits in the requests of two computations run one after
    the other. *)
Lemma app_split_at {X : Type} (l2 l1 later : list X) x earlier :
  l2 ++ l1 = later ++ x :: earlier ->
  (exists e2, l2 = later ++ x :: e2 /\ earlier = e2 ++ l1)
  \/ (exists l, l1 = l ++ x :: earlier /\ later = l2 ++ l).
Proof.
  revert later. induction l2 as [| y l2 IH]; intros later Heq.
  - right. exists later. split; [exact Heq | reflexivity].
  - destruct later as [| z later]; simpl in Heq.
    + injection Heq as -> <-. left. exists l2. split; reflexivity.
    + injection Heq as -> Heq.
      destruct (IH later Heq) as [(e2 & -> & ->) | (l & -> & ->)].
      * left. exists e2. split; reflexivity.
      * right. exists l. split; reflexivity.
Qed.

Lemma propagates_send method endpoint params json_data auth :
  propagates transport (send transport method endpoint params json_data auth).
Proof.
  intros w.
  exists [request_of method endpoint SERVER_ENDPOINT params json_data auth w].
  split.
  - rewrite send_world. reflexivity.
  - intros later rq earlier Hnew.
    destruct later as [| x later]; simpl in Hnew.
    + injection Hnew as <- <-. cbv zeta. simpl app. intros Hcode.
      split; [reflexivity |].
      rewrite send_raises by exact Hcode. reflexivity.
    + injection Hnew as _ Hnew. destruct later; discriminate Hnew.
Qed.

Lemma propagates_bind {A B : Type} (m : M A) (k : A -> M B) :
  propagates transport m -> (forall a, propagates transport (k a)) ->
  propagates transport (bind m k).
Proof.
  intros Hm Hk w. unfold bind.
  destruct (Hm w) as (new1 & Hsent1 & Hany1).
  destruct (m w) as [[a | e] w1] eqn:Emw; cbn [fst snd] in Hsent1, Hany1.
  - destruct (Hk a w1) as (new2 & Hsent2 & Hany2).
    exists (new2 ++ new1). split.
    + rewrite Hsent2, Hsent1. now rewrite app_assoc.
    + intros later rq earlier Hnew.
      destruct (app_split_at _ _ _ _ _ Hnew)
        as [(e2 & -> & ->) | (l & -> & ->)].
      * rewrite <- app_assoc, <- Hsent1.
        exact (Hany2 later rq e2 eq_refl).
      * cbv zeta. intros Hcode.
        destruct (Hany1 l rq earlier eq_refl Hcode) as [_ Habs].
        discriminate Habs.
  - exists new1. split; [exact Hsent1 |].
    intros later rq earlier Hnew Hcode.
    destruct (Hany1 later rq earlier Hnew Hcode) as [Hlast Hres].
    split; [exact Hlast |]. injection Hres as ->. reflexivity.
Qed.

Lemma propagates_silent {A : Type} (op : M A) :
  silent op -> propagates transport op.
Proof. apply silent_on_error_status. Qed.

(** A [try] whose handler is the one of this module lands softly when its
    suite propagates. *)
Lemma soft_lands_try get_error_type (suite : M value) :
  propagates transport suite ->
  soft_lands transport get_error_type
    (try_except suite forbidden_or_insufficient_balance
       (print_failure get_error_type)).
Proof.
  intros Hsuite w. unfold try_except.
  destruct (Hsuite w) as (new & Hsent & Hany).
  destruct (suite w) as [[v | e] w1] eqn:Esw; cbn [fst snd] in Hsent, Hany.
  - exists new. split; [exact Hsent |].
    intros later rq earlier Hnew Hcode.
    destruct (Hany later rq earlier Hnew Hcode) as [_ Habs].
    discriminate Habs.
  - destruct (forbidden_or_insufficient_balance e) eqn:Ecaught.
    + destruct e as [a | | | | | | |]; try discriminate Ecaught.
      exists new. split; [exact Hsent |].
      intros later rq earlier Hnew Hcode.
      destruct (Hany later rq earlier Hnew Hcode) as [Hlast Hres].
      split; [exact Hlast |]. injection Hres as <-.
      cbn [forbidden_or_insufficient_balance] in Ecaught.
      destruct (exc_kind a) eqn:Ekind; try discriminate Ecaught;
        (split; [reflexivity |]);
        unfold print_failure, bind, print, ret; cbn [fst snd stdout];
        eexists; reflexivity.
    + exists new. split; [exact Hsent |].
      intros later rq earlier Hnew Hcode.
      destruct (Hany later rq earlier Hnew Hcode) as [Hlast Hres].
      split; [exact Hlast |]. injection Hres as ->.
      cbn [forbidden_or_insufficient_balance] in Ecaught.
      match type of Ecaught with
      | context [exc_kind ?a] => destruct (exc_kind a)
      end; try discriminate Ecaught; reflexivity.
Qed.

Variable TradingType_value : TradingType -> value.
Variable json_dumps : value -> string.
Variable get_error_type : APIException -> string.
Variable str : value -> string.
Variable local_utcoffset : datetime -> Z + exn.

Ltac propagate :=
  repeat first
    [ apply propagates_send
    | apply propagates_bind; [| intros ?]
    | apply propagates_silent;
      first [ apply silent_ret | apply silent_raise | apply silent_print
            | apply silent_get_self | apply silent_put_self
            | apply silent_value_get | apply silent_subscript
            | apply silent_utc_isoformat ]
    | match goal with
      | |- propagates _ (if ?b then _ else _) => destruct b
      | |- propagates _ (match ?t with _ => _ end) => destruct t
      end ].

Lemma propagates_get_key strategy_code t :
  propagates transport (__get_key transport TradingType_value strategy_code t).
Proof. unfold __get_key, __fetch_key. propagate. Qed.

Abbreviation get_key := (__get_key transport TradingType_value).

(** C1, amended: [create_strategy], [start_strategy_algotrading] and
    [stop_strategy_algotrading] catch the Forbidden and InsufficientBalance
    errors of the dispatcher and no other kind: they print the failure and end
    without raising and without a value. Every other operation,
    [update_strategy] included, raises each classified error of the
    dispatcher, Forbidden included, to its caller. *)
Theorem facade_error_policy :
  (forall strategy_name strategy_details abc_version,
      soft_lands transport get_error_type
        (create_strategy transport get_error_type strategy_name
           strategy_details abc_version))
  /\ (forall strategy_code start_timestamp end_timestamp trading_type lots
             location initial_funds_virtual broker_details,
         soft_lands transport get_error_type
           (start_strategy_algotrading transport TradingType_value
              get_error_type local_utcoffset strategy_code start_timestamp
              end_timestamp trading_type lots location initial_funds_virtual
              broker_details))
  /\ (forall strategy_code trading_type,
         soft_lands transport get_error_type
           (stop_strategy_algotrading transport TradingType_value
              get_error_type strategy_code trading_type))
  /\ (forall strategy_code strategy_name strategy_details abc_version,
         propagates transport
           (update_strategy transport strategy_code strategy_name
              strategy_details abc_version))
  /\ propagates transport (get_all_strategies transport)
  /\ (forall strategy_code,
         propagates transport (get_strategy_details transport strategy_code))
  /\ (forall tradingsymbol exchange,
         propagates transport (search_instrument transport tradingsymbol exchange))
  /\ (forall strategy,
         propagates transport (delete_previous_trades transport strategy))
  /\ (forall strategy_code strategy_config trading_type,
         propagates transport
           (set_strategy_config transport TradingType_value str strategy_code
              strategy_config trading_type))
  /\ (forall strategy_code trading_type,
         propagates transport
           (get_job_status transport TradingType_value strategy_code
              trading_type))
  /\ (forall strategy_code trading_type initial_next_token,
         propagates transport
           (get_logs transport TradingType_value strategy_code trading_type
              initial_next_token))
  /\ (forall strategy_code trading_type report_type country current_page,
         propagates transport
           (get_reports transport TradingType_value json_dumps strategy_code
              trading_type report_type country current_page)).
Proof.
  repeat split; intros.
  - apply soft_lands_try. propagate.
  - apply soft_lands_try.
    apply propagates_bind; [apply propagates_get_key | intros ?]. propagate.
  - apply soft_lands_try.
    apply propagates_bind; [apply propagates_get_key | intros ?]. propagate.
  - unfold update_strategy. propagate.
  - unfold get_all_strategies. propagate.
  - unfold get_strategy_details. propagate.
  - unfold search_instrument. propagate.
  - unfold delete_previous_trades. propagate.
  - unfold set_strategy_config.
    apply propagates_bind; [apply propagates_get_key | intros ?]. propagate.
  - unfold get_job_status.
    apply propagates_bind; [apply propagates_get_key | intros ?]. propagate.
  - unfold get_logs.
    apply propagates_bind; [apply propagates_get_key | intros ?]. propagate.
  - unfold get_reports.
    apply propagates_bind; [apply propagates_get_key | intros ?]. propagate.
Qed.

End ErrorPolicy.

Example create_strategy_forbidden :
  fst (create_strategy (always forbidden_response) sample_error_type "n" "d" "v"
         new_world) = Return VNone.
Proof. reflexivity. Qed.

Example get_job_status_forbidden :
  fst (get_job_status (always forbidden_response) name_as_value "S1" BACKTESTING
         new_world)
  = Raise (APIError {| exc_kind := Forbidden; exc_method := "patch";
                       exc_url := SERVER_ENDPOINT +:+ "v2/portfolio/strategy";
                       exc_response := "denied"; exc_status_code := 403 |}).
Proof. reflexivity. Qed.

(** C1 as stated fails for [update_strategy]: a 403 answer leaves it as a
    Forbidden exception raised to the caller. *)
Lemma update_strategy_raises_forbidden :
  fst (update_strategy (always forbidden_response) "c" "n" "d" "v" new_world)
  = Raise (APIError
             {| exc_kind := Forbidden; exc_method := "put";
                exc_url :=
                  SERVER_ENDPOINT +:+ "v3/build/python/user/strategy/code";
                exc_response := "denied"; exc_status_code := 403 |}).
Proof. reflexivity. Qed.

(** ** The requests of the operations *)

Section Requests.

Variable transport : list Request -> Request -> Response.
Variable TradingType_value : TradingType -> value.
Variable json_dumps : value -> string.
Variable get_error_type : APIException -> string.
Variable local_utcoffset : datetime -> Z + exn.

Abbreviation get_key := (__get_key transport TradingType_value).

Lemma bind_return {A B : Type} (m : M A) (k : A -> M B) w a w1 :
  m w = (Return a, w1) -> bind m k w = k a w1.
Proof. intros H. unfold bind. now rewrite H. Qed.

Lemma sent_bind_silent {A B : Type} (m : M A) (k : A -> M B) w :
  (forall a, silent (k a)) -> sent (snd (bind m k w)) = sent (snd (m w)).
Proof.
  intros Hk. unfold bind. destruct (m w) as [[a | e] w1]; [apply Hk | reflexivity].
Qed.

(** The handler of the [except] clauses sends nothing. *)
Lemma sent_try (suite : M value) w :
  sent (snd (try_except suite forbidden_or_insufficient_balance
               (print_failure get_error_type) w)) = sent (snd (suite w)).
Proof.
  unfold try_except. destruct (suite w) as [[v | e] w1]; [reflexivity |].
  destruct (forbidden_or_insufficient_balance e); [| reflexivity].
  destruct e; reflexivity.
Qed.

(** What goes out when a request follows a line of output. *)
Lemma sent_print_send text end_ method endpoint params json_data
  (k : value -> M value) w :
  (forall a, silent (k a)) ->
  sent (snd ((print text end_;;;
              let! response := send transport method endpoint params json_data
                                 true in k response) w)) =
  request_of method endpoint SERVER_ENDPOINT params json_data true w :: sent w.
Proof.
  intros Hk. unfold bind at 1. cbn [print].
  rewrite sent_bind_silent by exact Hk. rewrite send_world. reflexivity.
Qed.

(** C8: once the key of the strategy is resolved, [get_reports] for
    BACKTESTING and PNL_TABLE sends one GET to v4/book/pl/data whose
    parameters have [isLive] false and, as [filters], the JSON text of the
    dictionary that maps "tradingType" to the value of BACKTESTING. *)
Theorem get_reports_pnl_backtesting strategy_code country current_page w k w1 :
  get_key strategy_code BACKTESTING w = (Return k, w1) ->
  exists rq,
    sent (snd (get_reports transport TradingType_value json_dumps strategy_code
                 BACKTESTING PNL_TABLE country current_page w)) = rq :: sent w1
    /\ req_method rq = "get"
    /\ req_url rq = SERVER_ENDPOINT +:+ "v4/book/pl/data"
    /\ Dict.get (params_of rq) "isLive" = Some (VBool false)
    /\ Dict.get (params_of rq) "filters" =
       Some (VStr (json_dumps
                     (VDict [("tradingType", TradingType_value BACKTESTING)]))).
Proof.
  intros Hkey. unfold get_reports.
  rewrite (bind_return _ _ _ _ _ Hkey).
  unfold bind at 1. cbn [ret].
  rewrite sent_bind_silent by (intros a; apply silent_ret).
  rewrite send_world. eexists. split; [reflexivity |].
  repeat split.
Qed.

Lemma bind_ret_l {A B : Type} (a : A) (k : A -> M B) w :
  bind (ret a) k w = k a w.
Proof. reflexivity. Qed.

(** The request of [start_strategy_algotrading] once the key is resolved
    and both timestamps are converted. *)
Lemma start_request_sent strategy_code s e t lots location funds broker
  w k w1 us ue :
  get_key strategy_code t w = (Return k, w1) ->
  astimezone_utc local_utcoffset s = Some us ->
  astimezone_utc local_utcoffset e = Some ue ->
  exists rq config,
    sent (snd (start_strategy_algotrading transport TradingType_value
                 get_error_type local_utcoffset strategy_code s e t lots
                 location funds broker w)) = rq :: sent w1
    /\ req_method rq = "patch"
    /\ req_url rq =
       SERVER_ENDPOINT +:+ "v5/portfolio/strategies?isPythonBuild=true&isLive="
       +:+ (if is_realtrading t then "true" else "false")
       +:+ "&location=" +:+ location
    /\ execute_config_of rq = Some config
    /\ Dict.get config (date_key t) =
       Some (VList [VStr (isoformat (replace_tzinfo us None));
                    VStr (isoformat (replace_tzinfo ue None))])
    /\ Dict.get config "initialFundsVirtual" =
       if is_realtrading t then None
       else Some (default default_initial_funds_virtual funds).
Proof.
  intros Hkey Hs He. unfold start_strategy_algotrading. cbv zeta.
  rewrite sent_try. rewrite (bind_return _ _ _ _ _ Hkey).
  unfold utc_isoformat. rewrite Hs, He. rewrite !bind_ret_l.
  rewrite sent_print_send
    by (intros a; unfold silent, bind, print, ret; reflexivity).
  destruct t; cbn [fst snd]; do 2 eexists;
    (split; [reflexivity |]); repeat split.
Qed.

(** C4, amended: for aware timestamps whose instants are representable in
    UTC (from 0001-01-01 to 9999-12-31), [start_strategy_algotrading] puts
    the pair of start and end under backDataDate for BACKTESTING,
    backDataTime for PAPERTRADING and liveDataTime for REALTRADING, and each
    of the two is the ISO text, without the offset, of the reading in UTC of
    the instant of its timestamp, whatever the time zone of the timestamp. *)
Theorem start_date_range strategy_code s e t lots location funds broker
  w k w1 :
  get_key strategy_code t w = (Return k, w1) ->
  valid_datetime s -> valid_datetime e ->
  representable_in_utc s ->
  representable_in_utc e ->
  exists rq config us ue,
    sent (snd (start_strategy_algotrading transport TradingType_value
                 get_error_type local_utcoffset strategy_code s e t lots
                 location funds broker w)) = rq :: sent w1
    /\ execute_config_of rq = Some config
    /\ Dict.get config
         match t with
         | BACKTESTING => "backDataDate"
         | PAPERTRADING => "backDataTime"
         | REALTRADING => "liveDataTime"
         end =
       Some (VList [VStr (isoformat (replace_tzinfo us None));
                    VStr (isoformat (replace_tzinfo ue None))])
    /\ utc_reading_of s us
    /\ utc_reading_of e ue
    /\ isoformat us = isoformat (replace_tzinfo us None) +:+ "+00:00"
    /\ isoformat ue = isoformat (replace_tzinfo ue None) +:+ "+00:00".
Proof.
  intros Hkey Hvs Hve Hrs Hre.
  destruct (astimezone_utc_spec local_utcoffset s Hvs Hrs) as (us & Hs & Hus).
  destruct (astimezone_utc_spec local_utcoffset e Hve Hre) as (ue & He & Hue).
  destruct (start_request_sent strategy_code s e t lots location funds broker
              w k w1 us ue Hkey Hs He)
    as (rq & config & Hsent & _ & _ & Hconfig & Hdate & _).
  exists rq, config, us, ue.
  split; [exact Hsent |]. split; [exact Hconfig |].
  split; [destruct t; exact Hdate |].
  split; [exact Hus |]. split; [exact Hue |].
  split; apply isoformat_utc_suffix; [apply Hus | apply Hue].
Qed.

(** A naive timestamp that the lookup of the local time zone refuses: the
    exception of the lookup leaves the method after the key is resolved, and
    no start request is sent. *)
Example start_first_day_naive_raises :
  start_strategy_algotrading (always ok_key_response) name_as_value
    sample_error_type local_utc_refusing_year_1 "S1" first_day_naive end_edt
    BACKTESTING 1 "IN" None VNone new_world =
  (Raise ValueError,
   snd (__get_key (always ok_key_response) name_as_value "S1" BACKTESTING
          new_world)).
Proof. vm_compute. reflexivity. Qed.

(** C10: once the key is resolved and the timestamps are converted, the
    request of [start_strategy_algotrading] carries [initialFundsVirtual]
    (1e9 unless the caller gives a value) in its execution descriptor and
    isLive=false in its endpoint for PAPERTRADING and BACKTESTING, and has no
    [initialFundsVirtual] and isLive=true for REALTRADING. *)
Theorem start_initial_funds_and_live_flag strategy_code s e t lots location
  funds broker w k w1 us ue :
  get_key strategy_code t w = (Return k, w1) ->
  astimezone_utc local_utcoffset s = Some us ->
  astimezone_utc local_utcoffset e = Some ue ->
  exists rq config,
    sent (snd (start_strategy_algotrading transport TradingType_value
                 get_error_type local_utcoffset strategy_code s e t lots
                 location funds broker w)) = rq :: sent w1
    /\ execute_config_of rq = Some config
    /\ match t with
       | REALTRADING =>
           Dict.get config "initialFundsVirtual" = None
           /\ req_url rq =
              SERVER_ENDPOINT
              +:+ "v5/portfolio/strategies?isPythonBuild=true&isLive=true&location="
              +:+ location
       | PAPERTRADING | BACKTESTING =>
           Dict.get config "initialFundsVirtual" =
           Some (default (VFloat 1 9) funds)
           /\ req_url rq =
              SERVER_ENDPOINT
              +:+ "v5/portfolio/strategies?isPythonBuild=true&isLive=false&location="
              +:+ location
       end.
Proof.
  intros Hkey Hs He.
  destruct (start_request_sent strategy_code s e t lots location funds broker
              w k w1 us ue Hkey Hs He)
    as (rq & config & Hsent & _ & Hurl & Hconfig & _ & Hfunds).
  exists rq, config. split; [exact Hsent |]. split; [exact Hconfig |].
  destruct t; (split; [exact Hfunds | exact Hurl]).
Qed.

End Requests.

Lemma get_reports_pnl_backtesting_witness :
  exists rq,
    sent (snd (get_reports (always ok_key_response) name_as_value sample_dumps
                 "S1" BACKTESTING PNL_TABLE "IN" 1 new_world)) =
    rq :: sent (snd (__get_key (always ok_key_response) name_as_value "S1"
                       BACKTESTING new_world))
    /\ req_method rq = "get"
    /\ req_url rq = SERVER_ENDPOINT +:+ "v4/book/pl/data"
    /\ Dict.get (params_of rq) "isLive" = Some (VBool false)
    /\ Dict.get (params_of rq) "filters" =
       Some (VStr (sample_dumps (VDict [("tradingType", VStr "BACKTESTING")]))).
Proof.
  apply (get_reports_pnl_backtesting (always ok_key_response) name_as_value
           sample_dumps "S1" "IN" 1 new_world (VStr "k1")).
  vm_compute. reflexivity.
Defined.

Lemma start_date_range_witness :
  exists rq config us ue,
    sent (snd (start_strategy_algotrading (always ok_key_response)
                 name_as_value sample_error_type local_utc "S1" start_ist
                 end_edt PAPERTRADING 2 "IN" None VNone new_world)) =
    rq :: sent (snd (__get_key (always ok_key_response) name_as_value "S1"
                       PAPERTRADING new_world))
    /\ execute_config_of rq = Some config
    /\ Dict.get config "backDataTime" =
       Some (VList [VStr (isoformat (replace_tzinfo us None));
                    VStr (isoformat (replace_tzinfo ue None))])
    /\ utc_reading_of start_ist us
    /\ utc_reading_of end_edt ue
    /\ isoformat us = isoformat (replace_tzinfo us None) +:+ "+00:00"
    /\ isoformat ue = isoformat (replace_tzinfo ue None) +:+ "+00:00".
Proof.
  apply (start_date_range (always ok_key_response) name_as_value
           sample_error_type local_utc "S1" start_ist end_edt PAPERTRADING 2
           "IN" None VNone new_world (VStr "k1")).
  - vm_compute. reflexivity.
  - unfold valid_datetime. cbn. lia.
  - unfold valid_datetime. cbn. lia.
  - vm_compute. split; [discriminate | reflexivity].
  - vm_compute. split; [discriminate | reflexivity].
Defined.

Example start_ist_in_utc :
  utc_isoformat local_utc start_ist new_world
  = (Return "2021-08-01T03:45:00", new_world).
Proof. reflexivity. Qed.

(** C4 as stated fails: a valid timestamp of the first day, one hour east
    of UTC, has no reading in UTC; the method raises [OverflowError] after
    the key is resolved and sends no start request. *)
Lemma start_first_day_east_overflows :
  valid_datetime first_day_east /\ valid_datetime end_edt
  /\ start_strategy_algotrading (always ok_key_response) name_as_value
       sample_error_type local_utc "S1" first_day_east end_edt BACKTESTING 1
       "IN" None VNone new_world =
     (Raise OverflowError,
      snd (__get_key (always ok_key_response) name_as_value "S1" BACKTESTING
             new_world)).
Proof.
  split; [unfold valid_datetime; cbn; lia |].
  split; [unfold valid_datetime; cbn; lia |].
  vm_compute. reflexivity.
Qed.

Lemma start_initial_funds_and_live_flag_witness :
  exists rq config,
    sent (snd (start_strategy_algotrading (always ok_key_response)
                 name_as_value sample_error_type local_utc "S1" start_ist
                 end_edt BACKTESTING 2 "IN" None VNone new_world)) =
    rq :: sent (snd (__get_key (always ok_key_response) name_as_value "S1"
                       BACKTESTING new_world))
    /\ execute_config_of rq = Some config
    /\ Dict.get config "initialFundsVirtual" = Some (VFloat 1 9)
       /\ req_url rq =
          SERVER_ENDPOINT
          +:+ "v5/portfolio/strategies?isPythonBuild=true&isLive=false&location="
          +:+ "IN".
Proof.
  apply (start_initial_funds_and_live_flag (always ok_key_response)
           name_as_value sample_error_type local_utc "S1" start_ist end_edt
           BACKTESTING 2 "IN" None VNone new_world (VStr "k1") _
           (replace_tzinfo
              {| year := 2021; month := 8; day := 1; hour := 3; minute := 45;
                 second := 0; microsecond := 0; tz := None |}
              (Some timezone_utc))
           (replace_tzinfo
              {| year := 2021; month := 8; day := 26; hour := 19; minute := 30;
                 second := 0; microsecond := 0; tz := None |}
              (Some timezone_utc))).
  - vm_compute. reflexivity.
  - vm_compute. reflexivity.
  - vm_compute. reflexivity.
Defined.

(** ** Invariants of the methods *)

Section Invariants.

Variable transport : list Request -> Request -> Response.
Variable TradingType_value : TradingType -> value.
Variable json_dumps : value -> string.
Variable get_error_type : APIException -> string.
Variable str : value -> string.
Variable local_utcoffset : datetime -> Z + exn.

Lemma quiet_ret {A : Type} (a : A) : quiet (ret a).
Proof. intros w. split; reflexivity. Qed.

Lemma quiet_raise {A : Type} e : quiet (@raise A e).
Proof. intros w. split; reflexivity. Qed.

Lemma quiet_print text end_ : quiet (print text end_).
Proof. intros w. split; reflexivity. Qed.

Lemma quiet_get_self {A : Type} (f : AlgoBullsAPI -> A) : quiet (get_self f).
Proof. intros w. split; reflexivity. Qed.

Lemma quiet_value_get response k : quiet (value_get response k).
Proof. intros w. destruct response; split; reflexivity. Qed.

Lemma quiet_subscript d k : quiet (subscript d k).
Proof. intros w. unfold subscript. destruct (d !! k); split; reflexivity. Qed.

Lemma quiet_utc_isoformat ts : quiet (utc_isoformat local_utcoffset ts).
Proof.
  intros w. unfold utc_isoformat.
  destruct (astimezone_utc local_utcoffset ts); split; reflexivity.
Qed.

Lemma quiet_print_failure e : quiet (print_failure get_error_type e).
Proof. intros w. destruct e; split; reflexivity. Qed.

Lemma sends_quiet {A : Type} h n P (op : M A) : quiet op -> sends h n P op.
Proof.
  intros Hq w Hh. destruct (Hq w) as [Hsent Hself]. exists [].
  repeat split; [exact Hsent | simpl; lia | constructor |].
  now rewrite Hself.
Qed.

Lemma sends_bind {A B : Type} h n1 n2 P (m : M A) (k : A -> M B) :
  sends h n1 P m -> (forall a, sends h n2 P (k a)) ->
  sends h (n1 + n2) P (bind m k).
Proof.
  intros Hm Hk w Hh. unfold bind.
  destruct (Hm w Hh) as (new1 & Hsent1 & Hlen1 & HP1 & Hh1).
  destruct (m w) as [[a | e] w1]; simpl in *.
  - destruct (Hk a w1 Hh1) as (new2 & Hsent2 & Hlen2 & HP2 & Hh2).
    exists (new2 ++ new1). repeat split.
    + rewrite Hsent2, Hsent1. now rewrite app_assoc.
    + rewrite length_app. lia.
    + apply Forall_app. split; assumption.
    + exact Hh2.
  - exists new1. repeat split; try assumption. lia.
Qed.

Lemma sends_weaken {A : Type} h n m P (op : M A) :
  (n <= m)%nat -> sends h n P op -> sends h m P op.
Proof.
  intros Hnm Hop w Hh. destruct (Hop w Hh) as (new & ? & ? & ? & ?).
  exists new. repeat split; try assumption. lia.
Qed.

Lemma sends_send h (P : Request -> Prop) method endpoint params json_data
  (auth : bool) :
  P {| req_method := method;
       req_headers := if auth then h else VNone;
       req_url := SERVER_ENDPOINT +:+ endpoint;
       req_params := params; req_json := json_data |} ->
  sends h 1 P (send transport method endpoint params json_data auth).
Proof.
  intros HP w Hh.
  exists [request_of method endpoint SERVER_ENDPOINT params json_data auth w].
  rewrite send_world. repeat split.
  - simpl. lia.
  - constructor; [| constructor]. unfold request_of. rewrite Hh. exact HP.
  - exact Hh.
Qed.

Lemma sends_try h n P (suite : M value) :
  sends h n P suite ->
  sends h n P (try_except suite forbidden_or_insufficient_balance
                 (print_failure get_error_type)).
Proof.
  intros Hs w Hh. unfold try_except.
  destruct (Hs w Hh) as (new & Hsent & Hlen & HP & Hh1).
  destruct (suite w) as [[v | e] w1]; simpl in *.
  - exists new. repeat split; assumption.
  - destruct (forbidden_or_insufficient_balance e).
    + destruct (quiet_print_failure e w1) as [Hs1 Hself1].
      exists new. repeat split; try assumption.
      * now rewrite Hs1.
      * now rewrite Hself1.
    + exists new. repeat split; assumption.
Qed.

Lemma sends_put_key h n P t code k :
  sends h n P (let! a := get_self id in put_self (set_key t code k a)).
Proof.
  intros w Hh. exists []. repeat split; [simpl; lia | constructor |].
  destruct t; exact Hh.
Qed.

Lemma sends_bind_0_l {A B : Type} h n P (m : M A) (k : A -> M B) :
  sends h 0 P m -> (forall a, sends h n P (k a)) -> sends h n P (bind m k).
Proof. intros Hm Hk. apply (sends_bind h 0 n); assumption. Qed.

Lemma sends_bind_0_r {A B : Type} h n P (m : M A) (k : A -> M B) :
  sends h n P m -> (forall a, sends h 0 P (k a)) -> sends h n P (bind m k).
Proof.
  intros Hm Hk. apply (sends_weaken h (n + 0) n); [lia |].
  apply sends_bind; assumption.
Qed.

Ltac quiet_step :=
  first [ apply quiet_ret | apply quiet_raise | apply quiet_print
        | apply quiet_get_self | apply quiet_value_get | apply quiet_subscript
        | apply quiet_utc_isoformat ].

Lemma sends_ext {A : Type} h n P (op op' : M A) :
  (forall w, op w = op' w) -> sends h n P op' -> sends h n P op.
Proof. intros Heq Hop w Hh. rewrite Heq. now apply Hop. Qed.

Lemma bind_assoc {A B C : Type} (m : M A) (f : A -> M B) (k : B -> M C) w :
  bind (bind m f) k w = bind m (fun a => bind (f a) k) w.
Proof. unfold bind. destruct (m w) as [[a | e] w1]; reflexivity. Qed.

(** [side] proves the property of the request of each [send]. *)
Ltac sends_with side :=
  lazymatch goal with
  | |- sends _ _ _ (bind (match ?t with _ => _ end) _) =>
      destruct t; sends_with side
  | |- sends _ _ _ (bind (ret ?a) ?k) =>
      apply (sends_ext _ _ _ _ (k a)); [intros ?; reflexivity |];
      cbv beta; sends_with side
  | |- sends _ _ _ (bind (bind ?m ?f) ?k) =>
      apply (sends_ext _ _ _ _ (bind m (fun a => bind (f a) k)));
      [intros ?; apply bind_assoc |]; sends_with side
  | |- sends _ _ _ (bind _ _) =>
      first [ apply sends_bind_0_l;
              [ solve [sends_with side] | intros ?; sends_with side ]
            | apply sends_bind_0_r;
              [ sends_with side | intros ?; solve [sends_with side] ] ]
  | |- sends _ _ _ (send _ _ _ _ _ _) =>
      apply (sends_weaken _ 1); [lia | apply sends_send; side]
  | |- sends _ _ _ (if ?b then _ else _) => destruct b; sends_with side
  | |- sends _ _ _ (match ?t with _ => _ end) => destruct t; sends_with side
  | |- sends _ _ _ (try_except _ _ _) => apply sends_try; sends_with side
  | |- sends _ _ _ (put_self _) => fail
  | |- _ => first [ apply sends_quiet; quiet_step | fail ]
  end.

Lemma sends_get_key h (P : Request -> Prop) code t :
  P {| req_method := registration_verb t; req_headers := h;
       req_url := registration_url; req_params := VNone;
       req_json := VDict [("strategyId", VStr code);
                          ("tradingType", TradingType_value t)] |} ->
  sends h 1 P (__get_key transport TradingType_value code t).
Proof.
  intros HP w Hh.
  pose proof (get_key_sent transport TradingType_value code t w) as Hsent.
  assert (Hself : headers (self (snd (__get_key transport TradingType_value
                                        code t w))) = h).
  { destruct (is_none (cached code t (self w))) eqn:Hc.
    - rewrite get_key_miss by exact Hc.
      pose proof (fetch_key_world transport TradingType_value code t w) as Hw.
      destruct (__fetch_key transport TradingType_value code t w)
        as [[k | e] w1]; simpl in *; subst w1; [destruct t |]; exact Hh.
    - rewrite get_key_hit by exact Hc. exact Hh. }
  destruct (is_none (cached code t (self w))).
  - exists [registration_request TradingType_value code t w].
    repeat split; [exact Hsent | simpl; lia | | exact Hself].
    constructor; [| constructor].
    unfold registration_request, request_of. rewrite Hh. exact HP.
  - exists []. repeat split; [exact Hsent | simpl; lia | constructor | exact Hself].
Qed.

Ltac calls_with side :=
  lazymatch goal with
  | |- sends _ _ _ (try_except _ _ _) => apply sends_try; calls_with side
  | |- sends _ _ _ (bind (__get_key _ _ _ _) _) =>
      apply (sends_bind _ 1 1);
      [ apply sends_get_key; side | intros ?; sends_with side ]
  | |- _ => sends_with side
  end.

Lemma perform_sends h (c : Call) :
  sends h 2
    (fun rq => req_headers rq = if unauthenticated c then VNone else h)
    (perform transport TradingType_value json_dumps get_error_type str
       local_utcoffset c).
Proof.
  destruct c; cbn [perform unauthenticated];
    unfold create_strategy, update_strategy, get_all_strategies,
      get_strategy_details, search_instrument, delete_previous_trades,
      set_strategy_config, start_strategy_algotrading,
      stop_strategy_algotrading, get_job_status, get_logs, get_reports;
    cbv zeta; calls_with ltac:(reflexivity).
Qed.

(** X2: whatever the platform answers, a call sends at most two requests; each
    of them carries the headers of the client, or none for the one method
    that is not authorized; and the headers of the client stay as they are. *)
Theorem perform_sends_with_headers (c : Call) w :
  exists new,
    sent (snd (perform transport TradingType_value json_dumps get_error_type
                 str local_utcoffset c w)) = new ++ sent w
    /\ (length new <= 2)%nat
    /\ Forall (fun rq => req_headers rq =
                         if unauthenticated c then VNone else headers (self w))
         new
    /\ headers (self (snd (perform transport TradingType_value json_dumps
                            get_error_type str local_utcoffset c w))) =
       headers (self w).
Proof. exact (perform_sends (headers (self w)) c w eq_refl). Qed.

Abbreviation get_key := (__get_key transport TradingType_value).
Abbreviation run :=
  (perform transport TradingType_value json_dumps get_error_type str
     local_utcoffset).

Lemma preserves_quiet {A : Type} I (op : M A) : quiet op -> preserves I op.
Proof. intros Hq w HI. destruct (Hq w) as [_ Hself]. now rewrite Hself. Qed.

Lemma preserves_send I method endpoint params json_data auth :
  preserves I (send transport method endpoint params json_data auth).
Proof. intros w HI. rewrite send_world. exact HI. Qed.

Lemma preserves_bind {A B : Type} I (m : M A) (k : A -> M B) :
  preserves I m -> (forall a, preserves I (k a)) -> preserves I (bind m k).
Proof.
  intros Hm Hk w HI. unfold bind. specialize (Hm w HI).
  destruct (m w) as [[a | e] w1]; simpl in *; [now apply Hk | exact Hm].
Qed.

Lemma preserves_try I (suite : M value) :
  preserves I suite ->
  preserves I (try_except suite forbidden_or_insufficient_balance
                 (print_failure get_error_type)).
Proof.
  intros Hs w HI. unfold try_except. specialize (Hs w HI).
  destruct (suite w) as [[v | e] w1]; simpl in *; [exact Hs |].
  destruct (forbidden_or_insufficient_balance e); [| exact Hs].
  destruct (quiet_print_failure e w1) as [_ Hself].
  now rewrite Hself.
Qed.

(** [pre] proves that [__get_key] keeps the property at hand. *)
Ltac preserves_with pre :=
  lazymatch goal with
  | |- preserves _ (bind _ _) =>
      apply preserves_bind; [preserves_with pre | intros ?; preserves_with pre]
  | |- preserves _ (send _ _ _ _ _ _) => apply preserves_send
  | |- preserves _ (__get_key _ _ _ _) => pre
  | |- preserves _ (if ?b then _ else _) => destruct b; preserves_with pre
  | |- preserves _ (match ?t with _ => _ end) => destruct t; preserves_with pre
  | |- preserves _ (try_except _ _ _) => apply preserves_try; preserves_with pre
  | |- _ => apply preserves_quiet; quiet_step
  end.

Ltac unfold_methods :=
  unfold create_strategy, update_strategy, get_all_strategies,
    get_strategy_details, search_instrument, delete_previous_trades,
    set_strategy_config, start_strategy_algotrading,
    stop_strategy_algotrading, get_job_status, get_logs, get_reports;
  cbv zeta.

(** What [__get_key] does to the client: nothing, or one assignment to the
    entry of its own pair, and only when that entry held no key. *)
Lemma get_key_self code t w :
  self (snd (get_key code t w)) = self w
  \/ is_none (cached code t (self w)) = true
     /\ exists k, self (snd (get_key code t w)) = set_key t code k (self w).
Proof.
  destruct (is_none (cached code t (self w))) eqn:Hc.
  - rewrite get_key_miss by exact Hc.
    pose proof (fetch_key_world transport TradingType_value code t w) as Hw.
    destruct (__fetch_key transport TradingType_value code t w)
      as [[k | e] w1]; simpl in *; subst w1.
    + right. split; [reflexivity |]. exists k. reflexivity.
    + left. reflexivity.
  - rewrite get_key_hit by exact Hc. left. reflexivity.
Qed.

Lemma cached_set_key_other t code k a code' t' :
  (code', t') <> (code, t) ->
  cached code' t' (set_key t code k a) = cached code' t' a.
Proof.
  intros Hne. unfold cached.
  destruct t, t'; simpl; try reflexivity;
    (destruct (decide (code = code')) as [-> | Hc];
     [contradiction Hne; reflexivity | now rewrite lookup_insert_ne]).
Qed.

(** X4: [__get_key] for one pair leaves the cache entry of every other pair,
    the headers and the page size as they were. *)
Theorem get_key_frame code t w code' t' :
  (code', t') <> (code, t) ->
  cached code' t' (self (snd (get_key code t w))) = cached code' t' (self w)
  /\ headers (self (snd (get_key code t w))) = headers (self w)
  /\ page_size (self (snd (get_key code t w))) = page_size (self w).
Proof.
  intros Hne.
  destruct (get_key_self code t w) as [-> | (_ & k & ->)];
    [repeat split |].
  split; [now apply cached_set_key_other |].
  destruct t; split; reflexivity.
Qed.

Lemma preserves_key_get_key code t k code0 t0 :
  is_none k = false ->
  preserves (fun a => cached code t a = k) (get_key code0 t0).
Proof.
  intros Hk w HI.
  destruct (get_key_self code0 t0 w) as [-> | (Hmiss & k0 & ->)];
    [exact HI |].
  rewrite cached_set_key_other; [exact HI |].
  intros [= -> ->]. rewrite HI, Hk in Hmiss. discriminate Hmiss.
Qed.

Lemma preserves_page_size_get_key n code0 t0 :
  preserves (fun a => page_size a = n) (get_key code0 t0).
Proof.
  intros w HI.
  destruct (get_key_self code0 t0 w) as [-> | (_ & k0 & ->)];
    [exact HI |].
  destruct t0; exact HI.
Qed.

(** X5: no call evicts or replaces a key: an entry of the cache that holds a
    key other than [None] holds the same key after any call, whatever the
    platform answers; the page size is kept as well. *)
Theorem perform_keeps_keys (c : Call) w code t :
  is_none (cached code t (self w)) = false ->
  cached code t (self (snd (run c w))) = cached code t (self w)
  /\ page_size (self (snd (run c w))) = page_size (self w).
Proof.
  intros Hk. split.
  - cut (preserves (fun a => cached code t a = cached code t (self w)) (run c));
      [intros H; now apply H |].
    destruct c; cbn [perform]; unfold_methods;
      preserves_with ltac:(apply preserves_key_get_key; exact Hk).
  - cut (preserves (fun a => page_size a = page_size (self w)) (run c));
      [intros H; now apply H |].
    destruct c; cbn [perform]; unfold_methods;
      preserves_with ltac:(apply preserves_page_size_get_key).
Qed.

Ltac not_registration :=
  cbn [req_url]; unfold registration_url, SERVER_ENDPOINT;
  cbv [String.append]; discriminate.

(** X6: a method that resolves no key sends exactly one request whatever
    the platform answers, never to the registration endpoint, and leaves the
    client, its key cache included, as it was. *)
Theorem perform_without_key (c : Call) w :
  resolved_pair c = None ->
  self (snd (run c w)) = self w
  /\ exists rq,
      sent (snd (run c w)) = rq :: sent w /\ req_url rq <> registration_url.
Proof.
  intros Hc. split.
  - cut (preserves (fun a => a = self w) (run c));
      [intros H; now apply H |].
    destruct c; try discriminate Hc; cbn [perform]; unfold_methods;
      preserves_with fail.
  - destruct c; try discriminate Hc; cbn [perform]; unfold_methods;
      try rewrite sent_try;
      first [ rewrite sent_print_send
                by (intros a; unfold silent, bind, print, ret; reflexivity)
            | rewrite sent_bind_silent by (intros a; apply silent_ret);
              rewrite send_world ];
      eexists; (split; [reflexivity | not_registration]).
Qed.

Lemma bind_get_key_hit {B : Type} code t (k : value -> M B) w :
  is_none (cached code t (self w)) = false ->
  bind (get_key code t) k w = k (cached code t (self w)) w.
Proof.
  intros Hc. apply bind_return. now apply get_key_hit.
Qed.

Lemma try_get_key_hit code t (k : value -> M value) w :
  is_none (cached code t (self w)) = false ->
  try_except (bind (get_key code t) k) forbidden_or_insufficient_balance
    (print_failure get_error_type) w =
  try_except (k (cached code t (self w))) forbidden_or_insufficient_balance
    (print_failure get_error_type) w.
Proof.
  intros Hc. unfold try_except. now rewrite bind_get_key_hit.
Qed.

(** X7: when the cache holds a key for the pair of a call, the call does not
    register again: it sends at most one request, which does not go to the
    registration endpoint, and leaves the client as it was. *)
Theorem perform_reuses_key (c : Call) code t w :
  resolved_pair c = Some (code, t) ->
  is_none (cached code t (self w)) = false ->
  self (snd (run c w)) = self w
  /\ exists new,
      sent (snd (run c w)) = new ++ sent w
      /\ (length new <= 1)%nat
      /\ Forall (fun rq => req_url rq <> registration_url) new.
Proof.
  intros Hc Hk.
  destruct c; try discriminate Hc; injection Hc as -> ->;
    cbn [perform]; unfold_methods;
    first [rewrite try_get_key_hit by exact Hk
          | rewrite bind_get_key_hit by exact Hk];
    destruct t; cbn [fst snd];
    (split;
     [ match goal with
       | |- self (snd (?op w)) = _ =>
           cut (preserves (fun a => a = self w) op);
           [intros H; now apply H | preserves_with fail]
       end
     | match goal with
       | |- exists new, sent (snd (?op w)) = _ /\ _ =>
           cut (sends (headers (self w)) 1
                  (fun rq => req_url rq <> registration_url) op);
           [ intros H; destruct (H w eq_refl) as (new & ? & ? & ? & _);
             exists new; repeat split; assumption
           | sends_with ltac:(not_registration) ]
       end ]).
Qed.

(** The dispatcher on a 200 answer, for the calls of the methods. *)
Lemma send_ok method endpoint params json_data auth w :
  let rq := request_of method endpoint SERVER_ENDPOINT params json_data auth w in
  let r := transport (sent w) rq in
  status_code r = 200 ->
  send transport method endpoint params json_data auth w =
  (Return match json r with
          | Some decoded => decoded
          | None => VDict [("response", VStr (body r))]
          end,
   after_request rq w).
Proof.
  intros rq r Hcode. unfold send. rewrite _send_request_unfold.
  fold rq. fold r. rewrite Hcode. simpl. destruct (json r); reflexivity.
Qed.

(** X8: on a cache miss answered with status 200, the key is the member
    "key" of the JSON object of the answer, and [None] when the object has no
    such member or the body is not JSON; that value is stored and returned.
    A JSON value that is not an object raises [AttributeError] and nothing is
    stored. *)
Theorem get_key_registration_answered code t w :
  let rq := registration_request TradingType_value code t w in
  let r := transport (sent w) rq in
  is_none (cached code t (self w)) = true ->
  status_code r = 200 ->
  get_key code t w =
  match json r with
  | Some (VDict d) =>
      (Return (default VNone (Dict.get d "key")),
       with_self (set_key t code (default VNone (Dict.get d "key")) (self w))
         (after_request rq w))
  | Some _ => (Raise AttributeError, after_request rq w)
  | None =>
      (Return VNone,
       with_self (set_key t code VNone (self w)) (after_request rq w))
  end.
Proof.
  intros rq r Hmiss Hcode.
  rewrite get_key_miss by exact Hmiss. rewrite fetch_key_unfold.
  rewrite send_ok by exact Hcode.
  subst rq r. unfold registration_request.
  match goal with
  | |- context [json ?x] => destruct (json x) as [[] |]
  end; reflexivity.
Qed.

(** X9: once the key is resolved, each of the reading methods is one call of
    the dispatcher that carries the key: [get_job_status] as the parameter
    [key] of a GET, [get_logs] in the body of a POST whose [limit] is the
    page size of the client and whose [isLive] tells REALTRADING from the
    other types, and [get_reports] for ORDER_HISTORY as a GET with the page
    asked for, the page size and the same [isLive]. *)
Theorem reading_methods_resolved code t w k w1 :
  get_key code t w = (Return k, w1) ->
  (get_job_status transport TradingType_value code t w =
   send transport "get" "v2/user/strategy/status" (VDict [("key", k)]) VNone
     true w1)
  /\ (forall token,
        get_logs transport TradingType_value code t token w =
        send transport "post" "v4/user/strategy/logs"
          (VDict [("isPythonBuild", VBool true);
                  ("isLive", VBool match t with
                                   | REALTRADING => true
                                   | _ => false
                                   end)])
          (VDict [("key", k); ("nextForwardToken", token);
                  ("limit", VInt (page_size (self w1)));
                  ("direction", VStr "forward"); ("type", VStr "userLogs")])
          true w1)
  /\ (forall country page,
        get_reports transport TradingType_value json_dumps code t
          ORDER_HISTORY country page w =
        send transport "get" "v5/build/python/user/order/charts"
          (VDict [("strategyId", VStr code); ("country", VStr country);
                  ("currentPage", VInt page);
                  ("pageSize", VInt (page_size (self w1)));
                  ("isLive", VBool match t with
                                   | REALTRADING => true
                                   | _ => false
                                   end)])
          VNone true w1).
Proof.
  intros Hkey. repeat split; intros;
    unfold get_job_status, get_logs, get_reports;
    rewrite (bind_return _ _ _ _ _ Hkey);
    unfold bind, get_self, ret; cbn [fst snd];
    destruct t; cbn [is_realtrading];
    match goal with
    | |- context [send ?a ?b ?c ?d ?e ?f ?g] =>
        destruct (send a b c d e f g) as [[v | e'] w2]
    end; reflexivity.
Qed.

(** X10: once the key is resolved, [stop_strategy_algotrading] sends one PATCH
    to v5/portfolio/strategies, without parameters, whose body resets the
    status of the record of that key and carries no execution descriptor. *)
Theorem stop_request code t w k w1 :
  get_key code t w = (Return k, w1) ->
  exists rq,
    sent (snd (stop_strategy_algotrading transport TradingType_value
                 get_error_type code t w)) = rq :: sent w1
    /\ req_method rq = "patch"
    /\ req_url rq = SERVER_ENDPOINT +:+ "v5/portfolio/strategies"
    /\ req_params rq = VNone
    /\ req_json rq =
       VDict [("method", VStr "update"); ("newVal", VInt 0); ("key", k);
              ("record", VDict [("status", VInt 2)]);
              ("dataIndex", VStr "executeConfig")]
    /\ execute_config_of rq = None.
Proof.
  intros Hkey. unfold stop_strategy_algotrading. cbv zeta.
  rewrite sent_try. rewrite (bind_return _ _ _ _ _ Hkey).
  rewrite sent_print_send
    by (intros a; unfold silent, bind, print, ret; reflexivity).
  eexists. split; [reflexivity |]. repeat split.
Qed.

(** X11: when the registration of a job method raises, no job request is
    sent: [start_strategy_algotrading] and [stop_strategy_algotrading] end
    there, with [None] for a Forbidden or InsufficientBalance error and with
    the exception itself for every other one. *)
Theorem job_methods_end_at_failed_registration code s e t lots location funds
  broker w ex w1 :
  get_key code t w = (Raise ex, w1) ->
  let start :=
    start_strategy_algotrading transport TradingType_value get_error_type
      local_utcoffset code s e t lots location funds broker w in
  let stop :=
    stop_strategy_algotrading transport TradingType_value get_error_type
      code t w in
  sent (snd start) = sent w1 /\ sent (snd stop) = sent w1
  /\ fst start = (if forbidden_or_insufficient_balance ex then Return VNone
                  else Raise ex)
  /\ fst stop = (if forbidden_or_insufficient_balance ex then Return VNone
                 else Raise ex).
Proof.
  intros Hkey start stop. subst start stop.
  unfold start_strategy_algotrading, stop_strategy_algotrading, try_except,
    bind. cbv zeta. rewrite Hkey.
  destruct (forbidden_or_insufficient_balance ex) eqn:Hc.
  - destruct ex; try discriminate Hc. repeat split.
  - repeat split.
Qed.

(** X12: when the platform answers the upload with status 200,
    [create_strategy] returns the decoded answer (the raw text in a
    dictionary when it is not JSON), having sent one POST and printed the
    progress line followed by [Success.]. *)
Theorem create_strategy_ok strategy_name strategy_details abc_version w :
  let rq :=
    request_of "post" "v3/build/python/user/strategy/code" SERVER_ENDPOINT
      VNone
      (VDict [("strategyName", VStr strategy_name);
              ("strategyDetails", VStr strategy_details);
              ("abcVersion", VStr abc_version)]) true w in
  let r := transport (sent w) rq in
  status_code r = 200 ->
  create_strategy transport get_error_type strategy_name strategy_details
    abc_version w =
  (Return match json r with
          | Some decoded => decoded
          | None => VDict [("response", VStr (body r))]
          end,
   {| self := self w; sent := rq :: sent w;
      stdout := ("Success." +:+ newline)
                :: (("Uploading strategy '" +:+ strategy_name +:+ "' ...")
                    +:+ " ")
                :: stdout w |}).
Proof.
  intros rq r Hcode.
  unfold create_strategy, try_except, bind, print. cbn [fst snd].
  rewrite send_ok by exact Hcode. reflexivity.
Qed.

(** X13: when the key is resolved and the platform answers the POST of the
    configuration with status 200, [set_strategy_config] returns the key
    together with the decoded answer; the POST goes to the endpoint of that
    key and its body is the configuration as given. *)
Theorem set_strategy_config_ok code strategy_config t w k w1 :
  get_key code t w = (Return k, w1) ->
  let rq :=
    request_of "post" ("v4/portfolio/tweak/" +:+ str k +:+ "?isPythonBuild=true")
      SERVER_ENDPOINT VNone strategy_config true w1 in
  let r := transport (sent w1) rq in
  status_code r = 200 ->
  set_strategy_config transport TradingType_value str code strategy_config t w =
  (Return (VList [k; match json r with
                     | Some decoded => decoded
                     | None => VDict [("response", VStr (body r))]
                     end]),
   {| self := self w1; sent := rq :: sent w1;
      stdout := ("Success." +:+ newline)
                :: ("Setting Strategy Config..." +:+ " ") :: stdout w1 |}).
Proof.
  intros Hkey rq r Hcode.
  unfold set_strategy_config. rewrite (bind_return _ _ _ _ _ Hkey).
  unfold bind, print. cbn [fst snd].
  rewrite send_ok by exact Hcode. reflexivity.
Qed.

(** X14: the body of the request of [start_strategy_algotrading] is an update
    of the record of the resolved key with status 0 and the lots, and its
    execution descriptor marks live data for PAPERTRADING and REALTRADING
    only, names the trading type and repeats the lots and the broker
    details. *)
Theorem start_descriptor code s e t lots location funds broker w k w1 us ue :
  get_key code t w = (Return k, w1) ->
  astimezone_utc local_utcoffset s = Some us ->
  astimezone_utc local_utcoffset e = Some ue ->
  exists rq config,
    sent (snd (start_strategy_algotrading transport TradingType_value
                 get_error_type local_utcoffset code s e t lots location
                 funds broker w)) = rq :: sent w1
    /\ req_params rq = VNone
    /\ req_json rq =
       VDict [("method", VStr "update"); ("newVal", VInt 1); ("key", k);
              ("record",
               VDict [("status", VInt 0); ("lots", VInt lots);
                      ("executeConfig", VDict config)]);
              ("dataIndex", VStr "executeConfig")]
    /\ Dict.get config "isLiveDataTestMode" =
       Some (VBool match t with BACKTESTING => false | _ => true end)
    /\ Dict.get config "customizationsQuantity" = Some (VInt lots)
    /\ Dict.get config "brokingDetails" = Some broker
    /\ Dict.get config "mode" = Some (VStr (TradingType_name t))
    /\ length config = match t with REALTRADING => 5%nat | _ => 6%nat end.
Proof.
  intros Hkey Hs He. unfold start_strategy_algotrading. cbv zeta.
  rewrite sent_try. rewrite (bind_return _ _ _ _ _ Hkey).
  unfold utc_isoformat. rewrite Hs, He. rewrite !bind_ret_l.
  rewrite sent_print_send
    by (intros a; unfold silent, bind, print, ret; reflexivity).
  destruct t; cbn [fst snd]; do 2 eexists;
    (split; [reflexivity |]); repeat split.
Qed.

(** An aware timestamp that is not attached to [timezone.utc] itself and
    whose instant is outside the calendar has no conversion, and the failure
    is the overflow of the subtraction. *)
Lemma astimezone_utc_overflow d :
  tz d <> Some timezone_utc ->
  unrepresentable_in_utc d ->
  astimezone_utc local_utcoffset d = None
  /\ astimezone_utc_error local_utcoffset d = OverflowError.
Proof.
  intros Htz Hrep.
  unfold unrepresentable_in_utc, utc_microseconds, utcoffset, in_calendar
    in Hrep.
  unfold astimezone_utc, astimezone_utc_error, to_utc, sub_timedelta,
    add_timedelta. cbv zeta.
  assert (Hout : forall off,
             ~ 86400000000 <= wall_microseconds d - off
                            < (_MAXORDINAL + 1) * 86400000000 ->
             (0 <? (wall_microseconds d + - off) / 86400000000)
             && ((wall_microseconds d + - off) / 86400000000 <=? _MAXORDINAL)
             = false).
  { intros off Hoff. apply andb_false_iff.
    unfold _MAXORDINAL in *.
    destruct (Z_lt_le_dec (wall_microseconds d - off) 86400000000) as [Hlo | Hhi].
    - left. apply Z.ltb_ge.
      assert ((wall_microseconds d + - off) / 86400000000 < 1); [| lia].
      apply Z.div_lt_upper_bound; lia.
    - right. apply Z.leb_gt.
      assert (3652059 + 1 <= (wall_microseconds d + - off) / 86400000000);
        [| lia].
      apply Z.div_le_lower_bound; lia. }
  destruct (tz d) as [[| off] |]; [contradiction | | contradiction].
  rewrite Hout by exact Hrep. split; reflexivity.
Qed.

(** X15: an aware start or end timestamp whose instant is not representable
    in UTC (and that is not attached to [timezone.utc] itself) makes
    [start_strategy_algotrading] raise [OverflowError] after the key is
    resolved: the exception is not caught and no start request is sent. *)
Theorem start_overflows code s e t lots location funds broker w k w1 :
  get_key code t w = (Return k, w1) ->
  (tz s <> Some timezone_utc /\ unrepresentable_in_utc s)
  \/ (valid_datetime s /\ representable_in_utc s
      /\ tz e <> Some timezone_utc /\ unrepresentable_in_utc e) ->
  start_strategy_algotrading transport TradingType_value get_error_type
    local_utcoffset code s e t lots location funds broker w =
  (Raise OverflowError, w1).
Proof.
  intros Hkey Hout. unfold start_strategy_algotrading, try_except. cbv zeta.
  rewrite (bind_return _ _ _ _ _ Hkey). unfold utc_isoformat.
  destruct Hout as [[Htz Hrep] | (Hvs & Hrs & Htz & Hrep)].
  - destruct (astimezone_utc_overflow s Htz Hrep) as [-> ->]. reflexivity.
  - destruct (astimezone_utc_spec local_utcoffset s Hvs Hrs) as (us & -> & _).
    rewrite bind_ret_l.
    destruct (astimezone_utc_overflow e Htz Hrep) as [-> ->]. reflexivity.
Qed.

(** X3: after [set_access_token], every request of every call carries the
    token as its Authorization header, except those of [search_instrument],
    which carry no headers; setting the token leaves the key cache as it
    was. *)
Theorem calls_carry_access_token (c : Call) access_token w :
  let w0 := with_self (set_access_token access_token (self w)) w in
  (exists new,
      sent (snd (run c w0)) = new ++ sent w
      /\ Forall (fun rq =>
                   req_headers rq =
                   if unauthenticated c then VNone
                   else VDict [("Authorization", VStr access_token)]) new)
  /\ forall code t, cached code t (self w0) = cached code t (self w).
Proof.
  intros w0. split.
  - destruct (perform_sends (VDict [("Authorization", VStr access_token)]) c
                w0 eq_refl) as (new & Hsent & _ & Hall & _).
    exists new. split; assumption.
  - intros code t. destruct t; reflexivity.
Qed.

(** X1: whatever the platform answers and whatever the arguments, a call of
    the dispatcher sends exactly one request, the one built from its
    arguments, and changes nothing else: there is no second attempt, and the
    client and the output are as before. *)
Theorem send_request_one_round_trip method endpoint base_url params json_data
  auth flag w :
  snd (_send_request transport method endpoint base_url params json_data auth
         flag w) =
  {| self := self w;
     sent := {| req_method := method;
                req_headers := if auth then headers (self w) else VNone;
                req_url := base_url +:+ endpoint;
                req_params := params; req_json := json_data |} :: sent w;
     stdout := stdout w |}.
Proof. rewrite _send_request_unfold. reflexivity. Qed.

End Invariants.

(** ** The key converter on every mapping *)

Section ConvertAll.

Context {V : Type}.
Implicit Types (d acc : list (string * V)) (k : string) (v : V).

Lemma dict_get_set acc k v k' :
  Dict.get (Dict.set acc k v) k' =
  if String.eqb k k' then Some v else Dict.get acc k'.
Proof.
  induction acc as [| [k0 v0] acc IH]; simpl.
  - reflexivity.
  - destruct (String.eqb_spec k0 k) as [-> | Hne]; simpl.
    + destruct (String.eqb_spec k k'); reflexivity.
    + rewrite IH. destruct (String.eqb_spec k0 k') as [-> | Hne'].
      * destruct (String.eqb_spec k k'); [congruence | reflexivity].
      * reflexivity.
Qed.

Lemma dict_get_app d1 d2 k :
  Dict.get (d1 ++ d2) k =
  match Dict.get d1 k with Some v => Some v | None => Dict.get d2 k end.
Proof.
  induction d1 as [| [k0 v0] d1 IH]; simpl; [reflexivity |].
  destruct (String.eqb k0 k); [reflexivity | exact IH].
Qed.

Lemma dict_keys_set acc k v :
  Dict.keys (Dict.set acc k v) =
  if bool_decide (k ∈ Dict.keys acc) then Dict.keys acc
  else Dict.keys acc ++ [k].
Proof.
  induction acc as [| [k0 v0] acc IH]; simpl; [reflexivity |].
  destruct (String.eqb_spec k0 k) as [-> | Hne]; simpl.
  - rewrite bool_decide_eq_true_2 by (now left). reflexivity.
  - rewrite IH. destruct (bool_decide (k ∈ Dict.keys acc)) eqn:Hin.
    + apply bool_decide_eq_true in Hin.
      rewrite bool_decide_eq_true_2 by (now right). reflexivity.
    + apply bool_decide_eq_false in Hin.
      rewrite bool_decide_eq_false_2; [reflexivity |].
      intros [Heq | Hin']%elem_of_cons; [congruence | contradiction].
Qed.

Lemma dict_set_nodup acc k v :
  NoDup (Dict.keys acc) -> NoDup (Dict.keys (Dict.set acc k v)).
Proof.
  intros Hnd. rewrite dict_keys_set.
  destruct (bool_decide (k ∈ Dict.keys acc)) eqn:Hin; [exact Hnd |].
  apply bool_decide_eq_false in Hin.
  apply NoDup_app. split; [exact Hnd |]. split.
  - intros x Hx [-> | Hnil]%elem_of_cons; [contradiction |].
    now apply elem_of_nil in Hnil.
  - apply NoDup_singleton.
Qed.

Lemma dict_set_keys_incl acc k v (P : string -> Prop) :
  Forall P (Dict.keys acc) -> P k -> Forall P (Dict.keys (Dict.set acc k v)).
Proof.
  intros Hacc Hk. rewrite dict_keys_set.
  destruct (bool_decide (k ∈ Dict.keys acc)); [exact Hacc |].
  apply Forall_app. split; [exact Hacc | now constructor].
Qed.

(** The comprehension read from the end: a lookup finds the value of the
    last item whose new key is the one looked up. *)
Lemma dict_comprehension_get (f : string -> string) d acc k :
  Dict.get (fold_left (fun acc kv => Dict.set acc (f (fst kv)) (snd kv)) d acc) k
  = match Dict.get (rev (map (fun kv => (f (fst kv), snd kv)) d)) k with
    | Some v => Some v
    | None => Dict.get acc k
    end.
Proof.
  revert acc. induction d as [| [k0 v0] d IH]; intros acc; simpl.
  - reflexivity.
  - rewrite IH, dict_get_app, dict_get_set. simpl.
    destruct (Dict.get (rev (map _ d)) k); [reflexivity |].
    destruct (String.eqb (f k0) k); reflexivity.
Qed.

Lemma dict_comprehension_keys (f : string -> string) d acc
  (P : string -> Prop) :
  NoDup (Dict.keys acc) -> Forall P (Dict.keys acc) -> (forall k, P (f k)) ->
  let out := fold_left (fun acc kv => Dict.set acc (f (fst kv)) (snd kv)) d acc in
  NoDup (Dict.keys out) /\ Forall P (Dict.keys out).
Proof.
  revert acc. induction d as [| [k0 v0] d IH]; intros acc Hnd HP Hf; simpl.
  - split; assumption.
  - apply IH; [now apply dict_set_nodup | | exact Hf].
    apply dict_set_keys_incl; [exact HP | apply Hf].
Qed.

End ConvertAll.

Lemma sub_from_no_upper s : no_upper s = true -> sub_from s = s.
Proof.
  induction s as [| c s IH]; simpl; [reflexivity |].
  intros [Hc Hs]%andb_true_iff. apply negb_true_iff in Hc.
  rewrite Hc, IH by exact Hs. reflexivity.
Qed.

Lemma lower_no_upper_id s : no_upper s = true -> lower s = s.
Proof.
  induction s as [| c s IH]; simpl; [reflexivity |].
  intros [Hc Hs]%andb_true_iff. apply negb_true_iff in Hc.
  unfold lower_char. rewrite Hc, IH by exact Hs. reflexivity.
Qed.

Lemma snake_case_fixed s : no_upper s = true -> snake_case s = s.
Proof.
  intros Hs. unfold snake_case.
  assert (Hsub : pattern_sub s = s).
  { destruct s as [| c s]; [reflexivity |]. simpl in *.
    apply andb_true_iff in Hs as [_ Hs]. now rewrite sub_from_no_upper. }
  rewrite Hsub. now apply lower_no_upper_id.
Qed.

(** X16: the ASCII keys that [snake_case] leaves as they are are exactly
    those without an upper-case letter, and converting a converted ASCII key
    changes nothing. *)
Theorem snake_case_fixed_points k :
  is_ascii k = true ->
  (snake_case k = k <-> no_upper k = true)
  /\ snake_case (snake_case k) = snake_case k.
Proof.
  intros _. split; [split |].
  - intros <-. apply lower_no_upper.
  - apply snake_case_fixed.
  - apply snake_case_fixed. apply lower_no_upper.
Qed.

(** X17: on every mapping with ASCII keys, [__convert] gives a mapping with
    distinct keys without upper-case letters, in which a key holds the value
    of the last item of the input whose key has that snake-case form. *)
Theorem convert_last_wins (d : list (string * value)) :
  Forall (fun k => is_ascii k = true) (Dict.keys d) ->
  NoDup (Dict.keys (__convert d))
  /\ Forall (fun k => no_upper k = true) (Dict.keys (__convert d))
  /\ forall k, Dict.get (__convert d) k = Dict.get (rev (map convert_item d)) k.
Proof.
  intros _. unfold __convert, dict_comprehension.
  destruct (dict_comprehension_keys snake_case d []
              (fun k => no_upper k = true)) as [Hnd Hlow];
    [constructor | constructor | intros k; apply lower_no_upper |].
  split; [exact Hnd |]. split; [exact Hlow |].
  intros k. rewrite dict_comprehension_get.
  change (fun kv : string * value => (snake_case kv.1, kv.2)) with convert_item.
  destruct (Dict.get (rev (map convert_item d)) k); reflexivity.
Qed.

Lemma convert_item_fixed (l : list (string * value)) :
  Forall (fun k => no_upper k = true) (Dict.keys l) ->
  map convert_item l = l /\ map snake_case (Dict.keys l) = Dict.keys l.
Proof.
  induction l as [| [k v] l IH]; simpl; intros Hlow; [split; reflexivity |].
  apply Forall_cons in Hlow as [Hk Hl]. destruct (IH Hl) as [IH1 IH2].
  unfold convert_item at 1. simpl.
  rewrite IH1, IH2, (snake_case_fixed k Hk). split; reflexivity.
Qed.

(** X18: on a mapping with ASCII keys, converting twice is converting
    once. *)
Theorem convert_idempotent (d : list (string * value)) :
  Forall (fun k => is_ascii k = true) (Dict.keys d) ->
  __convert (__convert d) = __convert d.
Proof.
  intros _.
  destruct (dict_comprehension_keys snake_case d []
              (fun k => no_upper k = true)) as [Hnd Hlow];
    [constructor | constructor | intros k; apply lower_no_upper |].
  fold (dict_comprehension snake_case d) in Hnd, Hlow.
  fold (__convert d) in Hnd, Hlow.
  destruct (convert_item_fixed (__convert d) Hlow) as [Hitems Hkeys].
  unfold __convert at 1.
  rewrite dict_comprehension_distinct by (rewrite Hkeys; exact Hnd).
  exact Hitems.
Qed.

(** ** The reading in UTC of an instant *)

Lemma days_before_year_succ y :
  _days_before_year (y + 1) =
  _days_before_year y + 365 + (if _is_leap y then 1 else 0).
Proof.
  unfold _days_before_year, _is_leap. cbv zeta.
  replace (y + 1 - 1) with y by lia.
  destruct (y mod 4 =? 0) eqn:E4; destruct (y mod 100 =? 0) eqn:E100;
    destruct (y mod 400 =? 0) eqn:E400; simpl;
    rewrite ?Z.eqb_eq, ?Z.eqb_neq in *;
    Z.div_mod_to_equations; lia.
Qed.

Lemma days_before_year_mono y y' :
  y <= y' -> _days_before_year y <= _days_before_year y'.
Proof.
  intros Hle. unfold _days_before_year. cbv zeta.
  Z.div_mod_to_equations. lia.
Qed.

Lemma month_cases m :
  1 <= m <= 12 ->
  m = 1 \/ m = 2 \/ m = 3 \/ m = 4 \/ m = 5 \/ m = 6 \/ m = 7 \/ m = 8
  \/ m = 9 \/ m = 10 \/ m = 11 \/ m = 12.
Proof. lia. Qed.

(** The day of the year of a date of the calendar. *)
Lemma day_of_year_bounds y m d :
  1 <= m <= 12 -> 1 <= d <= _days_in_month y m ->
  1 <= _days_before_month y m + d <= 365 + (if _is_leap y then 1 else 0).
Proof.
  intros Hm Hd. unfold _days_before_month, _days_in_month in *.
  destruct (_is_leap y);
    destruct (month_cases m Hm) as [-> | [-> | [-> | [-> | [-> | [-> | [-> |
      [-> | [-> | [-> | [-> | ->]]]]]]]]]]];
    cbn in *; lia.
Qed.

Lemma day_of_year_injective y m d m' d' :
  1 <= m <= 12 -> 1 <= d <= _days_in_month y m ->
  1 <= m' <= 12 -> 1 <= d' <= _days_in_month y m' ->
  _days_before_month y m + d = _days_before_month y m' + d' ->
  m = m' /\ d = d'.
Proof.
  intros Hm Hd Hm' Hd'. unfold _days_before_month, _days_in_month in *.
  destruct (_is_leap y);
    destruct (month_cases m Hm) as [-> | [-> | [-> | [-> | [-> | [-> | [-> |
      [-> | [-> | [-> | [-> | ->]]]]]]]]]]];
    destruct (month_cases m' Hm') as [-> | [-> | [-> | [-> | [-> | [-> | [-> |
      [-> | [-> | [-> | [-> | ->]]]]]]]]]]];
    cbn in *; lia.
Qed.

Lemma ymd2ord_injective y m d y' m' d' :
  1 <= m <= 12 -> 1 <= d <= _days_in_month y m ->
  1 <= m' <= 12 -> 1 <= d' <= _days_in_month y' m' ->
  _ymd2ord y m d = _ymd2ord y' m' d' ->
  y = y' /\ m = m' /\ d = d'.
Proof.
  intros Hm Hd Hm' Hd' Heq. unfold _ymd2ord in Heq.
  pose proof (day_of_year_bounds y m d Hm Hd) as Hb.
  pose proof (day_of_year_bounds y' m' d' Hm' Hd') as Hb'.
  pose proof (days_before_year_succ y) as Hs.
  pose proof (days_before_year_succ y') as Hs'.
  assert (Hy : y = y').
  { destruct (Z.lt_trichotomy y y') as [Hlt | [-> | Hgt]]; [| reflexivity |].
    - pose proof (days_before_year_mono (y + 1) y' ltac:(lia)). lia.
    - pose proof (days_before_year_mono (y' + 1) y ltac:(lia)). lia. }
  subst y'. split; [reflexivity |].
  apply (day_of_year_injective y); try assumption. lia.
Qed.

Lemma ymd2ord_bounds y m d :
  1 <= y <= 9999 -> 1 <= m <= 12 -> 1 <= d <= _days_in_month y m ->
  1 <= _ymd2ord y m d <= _MAXORDINAL.
Proof.
  intros Hy Hm Hd. unfold _ymd2ord.
  pose proof (day_of_year_bounds y m d Hm Hd) as Hb.
  pose proof (days_before_year_succ y) as Hs.
  pose proof (days_before_year_mono 1 y ltac:(lia)) as Hlo.
  pose proof (days_before_year_mono (y + 1) 10000 ltac:(lia)) as Hhi.
  change (_days_before_year 1) with 0 in Hlo.
  change (_days_before_year 10000) with 3652059 in Hhi.
  unfold _MAXORDINAL. lia.
Qed.

(** [_ord2ymd] takes the day of a date of the calendar back to the date. *)
Lemma ord2ymd_ymd2ord y m d :
  1 <= y <= 9999 -> 1 <= m <= 12 -> 1 <= d <= _days_in_month y m ->
  _ord2ymd (_ymd2ord y m d) = (y, m, d).
Proof.
  intros Hy Hm Hd.
  pose proof (ord2ymd_spec _ (ymd2ord_bounds y m d Hy Hm Hd)) as Hspec.
  destruct (_ord2ymd (_ymd2ord y m d)) as [[y' m'] d'].
  destruct Hspec as (_ & Hm' & Hd' & Heq).
  destruct (ymd2ord_injective y' m' d' y m d Hm' Hd' Hm Hd Heq)
    as (-> & -> & ->).
  reflexivity.
Qed.

Lemma add_timedelta_reading d delta :
  86400000000 <= wall_microseconds d + delta < (_MAXORDINAL + 1) * 86400000000 ->
  add_timedelta d delta =
  Some (replace_tzinfo (utc_reading (wall_microseconds d + delta)) (tz d)).
Proof.
  intros Ht. unfold add_timedelta, utc_reading. cbv zeta.
  set (t := wall_microseconds d + delta) in *.
  assert (Hdays : 1 <= t / 86400000000 <= _MAXORDINAL).
  { unfold _MAXORDINAL in *. split.
    - apply Z.div_le_lower_bound; lia.
    - assert (t / 86400000000 < 3652059 + 1); [| lia].
      apply Z.div_lt_upper_bound; lia. }
  replace ((0 <? t / 86400000000) && (t / 86400000000 <=? _MAXORDINAL))
    with true by (symmetry; apply andb_true_iff; lia).
  destruct (_ord2ymd (t / 86400000000)) as [[y m] dd]. reflexivity.
Qed.

(** The reading of the wall clock of a timestamp is the timestamp. *)
Lemma utc_reading_wall d :
  valid_datetime d ->
  utc_reading (wall_microseconds d) = replace_tzinfo d (Some timezone_utc).
Proof.
  intros (Hy & Hm & Hd & Hh & Hmi & Hs & Hus & _).
  unfold utc_reading, wall_microseconds, toordinal. cbv zeta.
  set (n := _ymd2ord (year d) (month d) (day d)).
  set (t := (((n * 24 + hour d) * 60 + minute d) * 60 + second d) * 1000000
            + microsecond d).
  assert (Hdays : t / 86400000000 = n)
    by (subst t; Z.div_mod_to_equations; lia).
  assert (Hsec : (t mod 86400000000) / 1000000
                 = (hour d * 60 + minute d) * 60 + second d)
    by (subst t; Z.div_mod_to_equations; lia).
  rewrite Hdays, Hsec. subst n.
  rewrite ord2ymd_ymd2ord by assumption.
  unfold replace_tzinfo. f_equal.
  all: subst t; Z.div_mod_to_equations; lia.
Qed.

(** The conversion of an aware timestamp gives the reading in UTC of its
    instant, and nothing else of the timestamp matters. *)
Lemma astimezone_utc_reading local_utcoffset d t :
  valid_datetime d ->
  utc_microseconds d = Some t ->
  in_calendar t ->
  astimezone_utc local_utcoffset d = Some (utc_reading t).
Proof.
  intros Hvalid Ht Hrep.
  unfold utc_microseconds, utcoffset, in_calendar in *.
  assert (Hto : forall off,
             86400000000 <= wall_microseconds d - off
                         < (_MAXORDINAL + 1) * 86400000000 ->
             to_utc d off = Some (utc_reading (wall_microseconds d - off))).
  { intros off Hoff. unfold to_utc, sub_timedelta, fromutc.
    destruct (add_timedelta_spec d (- off)) as (u1 & Hu1 & Hwall1 & _);
      [lia |].
    rewrite Hu1.
    rewrite add_timedelta_reading
      by (rewrite wall_microseconds_replace_tzinfo; lia).
    rewrite wall_microseconds_replace_tzinfo, Hwall1.
    replace (wall_microseconds d + - off + 0) with (wall_microseconds d - off)
      by lia.
    unfold utc_reading. cbv zeta.
    destruct (_ord2ymd ((wall_microseconds d - off) / 86400000000))
      as [[y m] dd]. reflexivity. }
  unfold astimezone_utc.
  destruct (tz d) as [[| off] |] eqn:Etz; [| | discriminate Ht];
    injection Ht as <-.
  - rewrite Z.sub_0_r, utc_reading_wall by exact Hvalid.
    destruct d; cbn in *. now rewrite Etz.
  - now apply Hto.
Qed.

Lemma string_length_app (a b : string) :
  String.length (a +:+ b) = (String.length a + String.length b)%nat.
Proof.
  induction a as [| x a IH]; [reflexivity |].
  change (S (String.length (a +:+ b)) = S (String.length a + String.length b)).
  now rewrite IH.
Qed.

Lemma zero_padded_length w n : String.length (zero_padded w n) = w.
Proof.
  revert n. induction w as [| w IH]; intros n; [reflexivity |].
  cbn [zero_padded]. rewrite string_length_app, IH. simpl. lia.
Qed.

(** X19: the text that [start_strategy_algotrading] makes of an aware
    timestamp depends on the instant only: two aware timestamps of the same
    instant, in whatever time zones, give the same text, which is the UTC
    reading of the instant in the form YYYY-MM-DDTHH:MM:SS, followed by a
    point and six digits when the microseconds are not zero, and by nothing
    else. *)
Theorem date_text_of_instant local_utcoffset s s' w :
  valid_datetime s -> valid_datetime s' ->
  representable_in_utc s ->
  utc_microseconds s' = utc_microseconds s ->
  exists t text,
    utc_microseconds s = Some t
    /\ utc_isoformat local_utcoffset s w = (Return text, w)
    /\ utc_isoformat local_utcoffset s' w = (Return text, w)
    /\ text = isoformat (replace_tzinfo (utc_reading t) None)
    /\ String.length text = if t mod 1000000 =? 0 then 19%nat else 26%nat.
Proof.
  intros Hs Hs' Hrep Heq.
  unfold representable_in_utc in Hrep.
  destruct (utc_microseconds s) as [t |] eqn:Ht; [| contradiction].
  exists t. eexists. unfold utc_isoformat.
  rewrite (astimezone_utc_reading local_utcoffset s t Hs Ht Hrep).
  rewrite (astimezone_utc_reading local_utcoffset s' t Hs' Heq Hrep).
  split; [reflexivity |].
  split; [reflexivity |]. split; [reflexivity |]. split; [reflexivity |].
  unfold isoformat, utc_reading. cbv zeta.
  destruct (_ord2ymd (t / 86400000000)) as [[y m] dd].
  cbn [replace_tzinfo year month day hour minute second microsecond tz].
  change (_format_offset None) with EmptyString.
  destruct (t mod 1000000 =? 0);
    rewrite !string_length_app, !zero_padded_length; reflexivity.
Qed.

(** ** The properties at sample inputs *)

Lemma get_key_frame_witness :
  cached "S1" PAPERTRADING
    (self (snd (__get_key (always ok_key_response) name_as_value "S1"
                  BACKTESTING new_world)))
  = cached "S1" PAPERTRADING (self new_world).
Proof.
  refine (proj1 (get_key_frame (always ok_key_response) name_as_value "S1"
                   BACKTESTING new_world "S1" PAPERTRADING _)).
  discriminate.
Defined.

Lemma perform_keeps_keys_witness :
  cached "S1" BACKTESTING
    (self (snd (perform (always ok_key_response) name_as_value sample_dumps
                  sample_error_type sample_str local_utc
                  (GetJobStatus "S2" REALTRADING) registered_world)))
  = cached "S1" BACKTESTING (self registered_world).
Proof.
  refine (proj1 (perform_keeps_keys (always ok_key_response) name_as_value
                   sample_dumps sample_error_type sample_str local_utc
                   (GetJobStatus "S2" REALTRADING) registered_world "S1"
                   BACKTESTING _)).
  vm_compute. reflexivity.
Defined.

Lemma perform_without_key_witness :
  self (snd (perform (always forbidden_response) name_as_value sample_dumps
               sample_error_type sample_str local_utc
               (DeletePreviousTrades "S1") new_world))
  = self new_world.
Proof.
  refine (proj1 (perform_without_key (always forbidden_response)
                   name_as_value sample_dumps sample_error_type sample_str
                   local_utc (DeletePreviousTrades "S1") new_world _)).
  reflexivity.
Defined.

Lemma perform_reuses_key_witness :
  self (snd (perform (always ok_key_response) name_as_value sample_dumps
               sample_error_type sample_str local_utc
               (StopStrategyAlgotrading "S1" BACKTESTING) registered_world))
  = self registered_world.
Proof.
  refine (proj1 (perform_reuses_key (always ok_key_response) name_as_value
                   sample_dumps sample_error_type sample_str local_utc
                   (StopStrategyAlgotrading "S1" BACKTESTING) "S1" BACKTESTING
                   registered_world _ _)).
  - reflexivity.
  - vm_compute. reflexivity.
Defined.

Lemma get_key_registration_answered_witness :
  __get_key (always ok_text_response) name_as_value "S1" REALTRADING new_world
  = (Return VNone,
     with_self (set_key REALTRADING "S1" VNone (self new_world))
       (after_request (registration_request name_as_value "S1" REALTRADING
                         new_world) new_world)).
Proof.
  refine (get_key_registration_answered (always ok_text_response)
            name_as_value "S1" REALTRADING new_world _ _).
  - reflexivity.
  - reflexivity.
Defined.

Lemma reading_methods_resolved_witness :
  get_job_status (always ok_key_response) name_as_value "S1" BACKTESTING
    new_world
  = send (always ok_key_response) "get" "v2/user/strategy/status"
      (VDict [("key", VStr "k1")]) VNone true registered_world.
Proof.
  refine (proj1 (reading_methods_resolved (always ok_key_response)
                   name_as_value sample_dumps "S1" BACKTESTING new_world
                   (VStr "k1") registered_world _)).
  vm_compute. reflexivity.
Defined.

Lemma stop_request_witness :
  exists rq,
    sent (snd (stop_strategy_algotrading (always ok_key_response)
                 name_as_value sample_error_type "S1" BACKTESTING new_world))
    = rq :: sent registered_world
    /\ req_method rq = "patch"
    /\ req_url rq = SERVER_ENDPOINT +:+ "v5/portfolio/strategies"
    /\ req_params rq = VNone
    /\ req_json rq =
       VDict [("method", VStr "update"); ("newVal", VInt 0);
              ("key", VStr "k1"); ("record", VDict [("status", VInt 2)]);
              ("dataIndex", VStr "executeConfig")]
    /\ execute_config_of rq = None.
Proof.
  apply (stop_request (always ok_key_response) name_as_value
           sample_error_type "S1" BACKTESTING new_world (VStr "k1")
           registered_world).
  vm_compute. reflexivity.
Defined.

Lemma job_methods_end_at_failed_registration_witness :
  fst (stop_strategy_algotrading (always forbidden_response) name_as_value
         sample_error_type "S1" PAPERTRADING new_world) = Return VNone.
Proof.
  refine (proj2 (proj2 (proj2
            (job_methods_end_at_failed_registration
               (always forbidden_response) name_as_value sample_error_type
               local_utc "S1" start_ist end_edt PAPERTRADING 1 "IN" None VNone
               new_world (registration_forbidden PAPERTRADING)
               (after_request (registration_request name_as_value "S1"
                                 PAPERTRADING new_world) new_world) _)))).
  vm_compute. reflexivity.
Defined.

Lemma create_strategy_ok_witness :
  fst (create_strategy (always ok_text_response) sample_error_type "n" "d" "v"
         new_world) = Return (VDict [("response", VStr "pong")]).
Proof.
  refine (f_equal fst
            (create_strategy_ok (always ok_text_response) sample_error_type
               "n" "d" "v" new_world _)).
  reflexivity.
Defined.

Lemma set_strategy_config_ok_witness :
  fst (set_strategy_config (always ok_key_response) name_as_value sample_str
         "S1" (VDict [("fundsAllocated", VInt 100)]) BACKTESTING new_world)
  = Return (VList [VStr "k1"; VDict [("key", VStr "k1")]]).
Proof.
  refine (f_equal fst
            (set_strategy_config_ok (always ok_key_response) name_as_value
               sample_str "S1" (VDict [("fundsAllocated", VInt 100)])
               BACKTESTING new_world (VStr "k1") registered_world _ _)).
  - vm_compute. reflexivity.
  - reflexivity.
Defined.

Lemma start_descriptor_witness :
  exists rq config,
    sent (snd (start_strategy_algotrading (always ok_key_response)
                 name_as_value sample_error_type local_utc "S1" start_ist
                 end_edt BACKTESTING 2 "IN" None VNone new_world))
    = rq :: sent registered_world
    /\ req_params rq = VNone
    /\ req_json rq =
       VDict [("method", VStr "update"); ("newVal", VInt 1);
              ("key", VStr "k1");
              ("record",
               VDict [("status", VInt 0); ("lots", VInt 2);
                      ("executeConfig", VDict config)]);
              ("dataIndex", VStr "executeConfig")]
    /\ Dict.get config "isLiveDataTestMode" = Some (VBool false)
    /\ Dict.get config "customizationsQuantity" = Some (VInt 2)
    /\ Dict.get config "brokingDetails" = Some VNone
    /\ Dict.get config "mode" = Some (VStr "BACKTESTING")
    /\ length config = 6%nat.
Proof.
  apply (start_descriptor (always ok_key_response) name_as_value
           sample_error_type local_utc "S1" start_ist end_edt BACKTESTING 2
           "IN" None VNone new_world (VStr "k1") registered_world start_utc
           (replace_tzinfo
              {| year := 2021; month := 8; day := 26; hour := 19; minute := 30;
                 second := 0; microsecond := 0; tz := None |}
              (Some timezone_utc))).
  - vm_compute. reflexivity.
  - vm_compute. reflexivity.
  - vm_compute. reflexivity.
Defined.

Lemma start_overflows_witness :
  start_strategy_algotrading (always ok_key_response) name_as_value
    sample_error_type local_utc "S1" first_day_east end_edt BACKTESTING 1 "IN"
    None VNone new_world
  = (Raise OverflowError, registered_world).
Proof.
  apply (start_overflows (always ok_key_response) name_as_value
           sample_error_type local_utc "S1" first_day_east end_edt BACKTESTING
           1 "IN" None VNone new_world (VStr "k1") registered_world).
  - vm_compute. reflexivity.
  - left. split; [discriminate |].
    vm_compute. intros [H _]. apply H. reflexivity.
Defined.

Lemma date_text_of_instant_witness :
  exists t text,
    utc_microseconds start_ist = Some t
    /\ utc_isoformat local_utc start_ist new_world = (Return text, new_world)
    /\ utc_isoformat local_utc start_utc new_world = (Return text, new_world)
    /\ text = isoformat (replace_tzinfo (utc_reading t) None)
    /\ String.length text = if t mod 1000000 =? 0 then 19%nat else 26%nat.
Proof.
  apply (date_text_of_instant local_utc start_ist start_utc new_world).
  - unfold valid_datetime. cbn. lia.
  - unfold valid_datetime. cbn. lia.
  - vm_compute. split; [discriminate | reflexivity].
  - vm_compute. reflexivity.
Defined.

Lemma snake_case_fixed_points_witness :
  (snake_case "strategy_code" = "strategy_code"
   <-> no_upper "strategy_code" = true)
  /\ snake_case (snake_case "strategy_code") = snake_case "strategy_code".
Proof.
  apply (snake_case_fixed_points "strategy_code"). reflexivity.
Defined.

Lemma convert_last_wins_witness :
  NoDup (Dict.keys (__convert colliding_dict))
  /\ Forall (fun k => no_upper k = true) (Dict.keys (__convert colliding_dict))
  /\ forall k, Dict.get (__convert colliding_dict) k =
               Dict.get (rev (map convert_item colliding_dict)) k.
Proof.
  apply (convert_last_wins colliding_dict). repeat constructor.
Defined.

Lemma convert_idempotent_witness :
  __convert (__convert nested_dict) = __convert nested_dict.
Proof.
  apply (convert_idempotent nested_dict). repeat constructor.
Defined.
